(** * NexusFetcher API: a shallow embedding of [main.py]

    The service drives one headless browser session per request and looks
    up a list of numbers on a fixed page.  Everything the program learns
    from the outside (the browser, the driver installer, the file system)
    is answered by an oracle [respond]; every call made to it is recorded
    in a trace, so that statements such as "the session is closed once"
    can be read off a run.

    Python frames are modelled as records of local variables held in the
    state, exceptions as values of [exn] with the class hierarchy the
    handlers of [main.py] discriminate on. *)

From Stdlib Require Import String Ascii List ZArith Lia Bool.
Import ListNotations.

Open Scope string_scope.
Open Scope Z_scope.

(** ** Strings

    A character is a code point below 256.  On that range the predicates
    below agree with [str.isspace] and [str.isdigit]: the superscripts
    U+00B2, U+00B3 and U+00B9 are digits for [isdigit], and U+0085 and
    U+00A0 are white space for [strip]. *)

Definition isspace (c : ascii) : bool :=
  let n := nat_of_ascii c in
  ((9 <=? n) && (n <=? 13) || (28 <=? n) && (n <=? 32)
   || (n =? 133) || (n =? 160))%nat.

Definition isdigit_char (c : ascii) : bool :=
  let n := nat_of_ascii c in
  ((48 <=? n) && (n <=? 57) || (n =? 178) || (n =? 179) || (n =? 185))%nat.

Definition is_empty (s : string) : bool :=
  match s with EmptyString => true | String _ _ => false end.

Fixpoint lstrip (s : string) : string :=
  match s with
  | EmptyString => EmptyString
  | String c r => if isspace c then lstrip r else s
  end.

Fixpoint rstrip (s : string) : string :=
  match s with
  | EmptyString => EmptyString
  | String c r =>
      let r' := rstrip r in
      if isspace c && is_empty r' then EmptyString else String c r'
  end.

(** [s.strip()] *)
Definition strip (s : string) : string := lstrip (rstrip s).

Fixpoint all_digits (s : string) : bool :=
  match s with
  | EmptyString => true
  | String c r => isdigit_char c && all_digits r
  end.

(** [s.isdigit()]: false on the empty string. *)
Definition isdigit (s : string) : bool := negb (is_empty s) && all_digits s.

(** [s.startswith(p)] *)
Definition startswith (s p : string) : bool := String.prefix p s.

(** [s[n:]] *)
Fixpoint slice_from (n : nat) (s : string) : string :=
  match n, s with
  | O, _ => s
  | S _, EmptyString => EmptyString
  | S m, String _ r => slice_from m r
  end.

(** [len(s)] *)
Definition len (s : string) : Z := Z.of_nat (String.length s).

(** The lines a text file yields when iterated: each keeps its newline;
    the text is the one the text layer delivers, newlines translated. *)
Fixpoint lines_from (cur : string) (s : string) : list string :=
  match s with
  | EmptyString => if is_empty cur then [] else [cur]
  | String c r =>
      if Ascii.eqb c "010"%char
      then (cur ++ String c EmptyString) :: lines_from EmptyString r
      else lines_from (cur ++ String c EmptyString) r
  end.

Definition file_lines (text : string) : list string :=
  lines_from EmptyString text.

(** ** Exceptions *)

Inductive exn_class : Type :=
| TimeoutException
| NoSuchElementException
| WebDriverException
| FileNotFoundError
| Exception
| HTTPException (status_code : Z).

Record exn : Type := mkExn { cls : exn_class; str : string }.

(** [except WebDriverException]: selenium derives [TimeoutException] and
    [NoSuchElementException] from it. *)
Definition isinstance_WebDriverException (e : exn) : bool :=
  match cls e with
  | TimeoutException | NoSuchElementException | WebDriverException => true
  | _ => false
  end.

Definition isinstance_TimeoutException (e : exn) : bool :=
  match cls e with TimeoutException => true | _ => false end.

Definition isinstance_NoSuchElementException (e : exn) : bool :=
  match cls e with NoSuchElementException => true | _ => false end.

Definition isinstance_FileNotFoundError (e : exn) : bool :=
  match cls e with FileNotFoundError => true | _ => false end.

Definition isinstance_HTTPException (e : exn) : bool :=
  match cls e with HTTPException _ => true | _ => false end.

(** [HTTPException(status_code=..., detail=...)] *)
Definition http_exception (status_code : Z) (detail : string) : exn :=
  mkExn (HTTPException status_code) detail.

(** ** Calls to the outside world *)

Inductive By : Type := CSS_SELECTOR | XPATH.

Inductive expected_condition : Type :=
| element_to_be_clickable
| presence_of_element_located
| visibility_of_element_located.

(** [WebDriverWait(driver, timeout)] *)
Record WebDriverWait : Type := mkWebDriverWait {
  wait_driver : string;
  wait_timeout : Z }.

(** Drivers, services and page elements are handles named by strings. *)
Inductive call : Type :=
| GeckoDriverManager_install
| webdriver_Firefox (service : string) (options : list string)
| driver_get (driver url : string)
| wait_until (wait : WebDriverWait) (cond : expected_condition)
             (by_ : By) (selector : string)
| find_element (driver : string) (by_ : By) (selector : string)
| element_click (element : string)
| element_clear (element : string)
| element_send_keys (element keys : string)
| element_text (element : string)
| execute_script (driver script : string)
| driver_quit (driver : string)
| save_upload (path : string)
| open_read (path : string)
| os_path_exists (path : string)
| os_remove (path : string).

Inductive reply : Type :=
| Returns (value : string)
| Raises (e : exn).

Definition event : Type := (call * reply)%type.

Definition is_quit (ev : event) : bool :=
  match fst ev with driver_quit _ => true | _ => false end.

Definition is_session_start (ev : event) : bool :=
  match fst ev with
  | GeckoDriverManager_install | webdriver_Firefox _ _ => true
  | _ => false
  end.

(** A browser session came up. *)
Definition is_opened (ev : event) : bool :=
  match ev with
  | (webdriver_Firefox _ _, Returns _) => true
  | _ => false
  end.

Definition is_browser_call (ev : event) : bool :=
  match fst ev with
  | save_upload _ | open_read _ | os_path_exists _ | os_remove _ => false
  | _ => true
  end.

Definition raised (ev : event) : bool :=
  match snd ev with Raises _ => true | Returns _ => false end.

Definition count_events (p : event -> bool) (tr : list event) : nat :=
  List.length (filter p tr).

(** ** Configuration constants *)

Definition DEFAULT_WEBSITE_URL : string :=
  "https://safer.fmcsa.dot.gov/CompanySnapshot.aspx".
Definition TEMP_UPLOAD_DIR : string := "temp_uploads".
Definition NA : string := "N/A".

(** ** Request and response models *)

Record ScrapeRequest : Type := mkScrapeRequest {
  website_url : string;
  numbers : list string }.

Record ScrapeResult : Type := mkScrapeResult {
  number_searched : string;
  email : string;
  name : string;
  phone : string }.

Record ScrapeResponse : Type := mkScrapeResponse {
  status : string;
  message : string;
  results : list ScrapeResult;
  total_processed : Z;
  errors : list string }.

(** The record a failed or empty lookup yields. *)
Definition default_result (number : string) : ScrapeResult :=
  mkScrapeResult number NA NA NA.

Definition SELENIUM_WAIT_TIMEOUT : Z := 20.

(** ** State, exceptions and the program monad

    A state holds the local variables of the running function, the
    outside world, the trace of calls made to it with their replies, and
    the [logs] list every function of a request appends to. *)

Record state (W L : Type) : Type := mkState {
  locals : L;
  world : W;
  trace : list event;
  logs : list string }.

Arguments mkState {W L} _ _ _ _.
Arguments locals {W L} _.
Arguments world {W L} _.
Arguments trace {W L} _.
Arguments logs {W L} _.

Definition M (W L A : Type) : Type := state W L -> state W L * (exn + A).

Definition ret {W L A} (a : A) : M W L A := fun st => (st, inr a).

Definition raise {W L A} (e : exn) : M W L A := fun st => (st, inl e).

Definition bind {W L A B} (m : M W L A) (k : A -> M W L B) : M W L B :=
  fun st =>
    match m st with
    | (st', inl e) => (st', inl e)
    | (st', inr a) => k a st'
    end.

Declare Scope prog_scope.
Delimit Scope prog_scope with prog.
Notation "x <- m ;; k" := (bind m (fun x => k))
  (at level 61, m at next level, right associativity) : prog_scope.
Notation "m ;; k" := (bind m (fun _ => k))
  (at level 61, right associativity) : prog_scope.
Open Scope prog_scope.

(** [try: m  except ... as e: h e]; a handler that does not match the
    class of [e] re-raises it. *)
Definition try_except {W L A} (m : M W L A) (h : exn -> M W L A) : M W L A :=
  fun st =>
    match m st with
    | (st', inl e) => h e st'
    | (st', inr a) => (st', inr a)
    end.

(** [try: m  finally: fin]; an exception leaving [fin] replaces the
    outcome of [m]. *)
Definition try_finally {W L A} (m : M W L A) (fin : M W L unit) : M W L A :=
  fun st =>
    let (st1, r) := m st in
    match fin st1 with
    | (st2, inl e) => (st2, inl e)
    | (st2, inr _) => (st2, r)
    end.

Definition get {W L} : M W L L := fun st => (st, inr (locals st)).

Definition assign {W L} (f : L -> L) : M W L unit :=
  fun st => (mkState (f (locals st)) (world st) (trace st) (logs st), inr tt).

(** [logs.append(s)] *)
Definition logs_append {W L} (s : string) : M W L unit :=
  fun st =>
    (mkState (locals st) (world st) (trace st) (logs st ++ [s]), inr tt).

(** [logs = []] *)
Definition logs_new {W L} : M W L unit :=
  fun st => (mkState (locals st) (world st) (trace st) [], inr tt).

(** The state in which a callee starts: a frame of its own on the
    caller's world, trace and logs. *)
Definition enter {W L L'} (frame : L') (st : state W L) : state W L' :=
  mkState frame (world st) (trace st) (logs st).

(** The state of the caller once the callee has left in [st']. *)
Definition leave {W L L'} (st : state W L) (st' : state W L') : state W L :=
  mkState (locals st) (world st') (trace st') (logs st').

(** Run the body of a function in a frame of its own; the caller's
    variables come back when it returns or raises. *)
Definition call_with {W L L' A} (frame : L') (m : M W L' A) : M W L A :=
  fun st => let (st', r) := m (enter frame st) in (leave st st', r).

Fixpoint for_each {W L X} (xs : list X) (body : X -> M W L unit)
  : M W L unit :=
  match xs with
  | [] => ret tt
  | x :: rest => body x ;; for_each rest body
  end.

Definition is_nil {X} (xs : list X) : bool :=
  match xs with [] => true | _ :: _ => false end.

(** [os.path.join(a, b)] on a POSIX host, for a directory [a] that is
    not empty and does not end in a slash. *)
Definition os_path_join (a b : string) : string :=
  if startswith b "/" then b else a ++ "/" ++ b.

(** Local variables of [_perform_single_scrape]. *)
Record scrape_locals : Type := mkScrapeLocals {
  var_email : string;
  var_name : string;
  var_phone : string }.

Definition set_email (v : string) (l : scrape_locals) : scrape_locals :=
  mkScrapeLocals v (var_name l) (var_phone l).
Definition set_name (v : string) (l : scrape_locals) : scrape_locals :=
  mkScrapeLocals (var_email l) v (var_phone l).
Definition set_phone (v : string) (l : scrape_locals) : scrape_locals :=
  mkScrapeLocals (var_email l) (var_name l) v.

(** Local variables of the two endpoints that their handlers, their
    [finally] blocks and their [return] read. *)
Record batch_locals : Type := mkBatchLocals {
  var_driver : option string;
  var_results : list ScrapeResult;
  var_errors : list string;
  var_processed_count : Z }.

Definition set_driver (d : option string) (l : batch_locals) :=
  mkBatchLocals d (var_results l) (var_errors l) (var_processed_count l).
Definition results_append (r : ScrapeResult) (l : batch_locals) :=
  mkBatchLocals (var_driver l) (var_results l ++ [r]) (var_errors l)
                (var_processed_count l).
Definition errors_append (s : string) (l : batch_locals) :=
  mkBatchLocals (var_driver l) (var_results l) (var_errors l ++ [s])
                (var_processed_count l).
Definition processed_count_incr (l : batch_locals) :=
  mkBatchLocals (var_driver l) (var_results l) (var_errors l)
                (var_processed_count l + 1).

(** ** Selectors of the page *)

Definition RADIO_BUTTON : string := "#\32".
Definition SEARCH_INPUT : string := "#\34".
Definition SEARCH_BUTTON : string :=
  "body > form > p > table > tbody > tr:nth-child(4) > td > input[type=SUBMIT]".
Definition SMS_RESULT_LINK : string :=
  "body > p > table > tbody > tr:nth-child(2) > td > table > tbody > tr:nth-child(2) > td > table:nth-child(1) > tbody > tr:nth-child(3) > td > table > tbody > tr:nth-child(2) > td > table > tbody > tr:nth-child(3) > td:nth-child(2) > font > a".
Definition CARRIER_DETAILS_BUTTON : string :=
  "#CarrierRegistration > a:nth-child(2)".
Definition REG_BOX : string := "#regBox".
Definition NAME_ELEMENT : string :=
  "#regBox > ul.col1 > li:nth-child(1) > span".
Definition PHONE_ELEMENT : string :=
  "#regBox > ul.col1 > li:nth-child(5) > span".
Definition EMAIL_ELEMENT : string :=
  "#regBox > ul.col1 > li:nth-child(7) > span".
Definition CLOSE_MODAL_BUTTON : string :=
  "//div[@id='CarrierRegistration']//img[@alt='Close'] | //div[@id='CarrierRegistration']//button[contains(.,'X')]".
Definition SCROLL_SCRIPT : string :=
  "window.scrollTo(0, document.body.scrollHeight);".

(** ** The program *)

Section Program.

Context {W : Type}.
Variable respond : W -> call -> W * reply.

(** One call to the outside: the world moves on, the call and its reply
    are recorded, and a raising reply becomes a Python exception. *)
Definition perform {L} (c : call) : M W L string :=
  fun st =>
    let (w', r) := respond (world st) c in
    let st' := mkState (locals st) w' (trace st ++ [(c, r)]) (logs st) in
    match r with
    | Returns v => (st', inr v)
    | Raises e => (st', inl e)
    end.

(** What the world answers to lines 185-188, the start of a session. *)
Definition open_session (w : W) : W * reply :=
  match respond w GeckoDriverManager_install with
  | (w1, Returns service) => respond w1 (webdriver_Firefox service ["--headless"])
  | (w1, Raises e) => (w1, Raises e)
  end.

(** What the page answers when the text of a field is looked up. *)
Definition field_text {L} (driver selector : string) : M W L string :=
  element <- perform (find_element driver CSS_SELECTOR selector) ;;
  perform (element_text element).

(** Lines 61-75: load the page, pick the radio option, type the number
    and submit. *)
Definition submit_search (driver : string) (wait : WebDriverWait)
    (website_url number : string) : M W scrape_locals unit :=
  perform (driver_get driver website_url) ;;
  logs_append ("Navigated to: " ++ website_url) ;;
  radio_button <-
    perform (wait_until wait element_to_be_clickable CSS_SELECTOR RADIO_BUTTON) ;;
  perform (element_click radio_button) ;;
  logs_append "Clicked the radio button (#\32)." ;;
  search_input <-
    perform (wait_until wait presence_of_element_located CSS_SELECTOR SEARCH_INPUT) ;;
  perform (element_clear search_input) ;;
  perform (element_send_keys search_input number) ;;
  logs_append ("Entered '" ++ number ++ "' into search input.") ;;
  search_button <-
    perform (wait_until wait element_to_be_clickable CSS_SELECTOR SEARCH_BUTTON) ;;
  perform (element_click search_button) ;;
  logs_append "Clicked Search button.".

(** Lines 79-93: follow the result link, open the details panel, wait
    for it and scroll.  [time.sleep(0.5)] makes no call. *)
Definition open_carrier_details (driver : string) (wait : WebDriverWait)
  : M W scrape_locals unit :=
  sms_result_link <-
    perform (wait_until wait presence_of_element_located CSS_SELECTOR
                        SMS_RESULT_LINK) ;;
  perform (element_click sms_result_link) ;;
  logs_append "Clicked 'SMS result' link." ;;
  carrier_details_button <-
    perform (wait_until wait element_to_be_clickable CSS_SELECTOR
                        CARRIER_DETAILS_BUTTON) ;;
  perform (element_click carrier_details_button) ;;
  logs_append "Clicked 'Carrier Details' button." ;;
  perform (wait_until wait visibility_of_element_located CSS_SELECTOR REG_BOX) ;;
  logs_append "Carrier details modal/section loaded." ;;
  perform (execute_script driver SCROLL_SCRIPT) ;;
  ret tt.

(** Lines 95-99. *)
Definition read_name (driver : string) : M W scrape_locals unit :=
  try_except
    (name_element <- perform (find_element driver CSS_SELECTOR NAME_ELEMENT) ;;
     text <- perform (element_text name_element) ;;
     assign (set_name (strip text)))
    (fun e =>
       if isinstance_NoSuchElementException e
       then logs_append "Name element not found."
       else raise e).

(** Lines 101-105. *)
Definition read_phone (driver : string) : M W scrape_locals unit :=
  try_except
    (phone_element <- perform (find_element driver CSS_SELECTOR PHONE_ELEMENT) ;;
     text <- perform (element_text phone_element) ;;
     assign (set_phone (strip text)))
    (fun e =>
       if isinstance_NoSuchElementException e
       then logs_append "Phone element not found."
       else raise e).

(** Lines 107-112. *)
Definition read_email (driver : string) : M W scrape_locals unit :=
  try_except
    (email_element <- perform (find_element driver CSS_SELECTOR EMAIL_ELEMENT) ;;
     text <- perform (element_text email_element) ;;
     assign (set_email (strip text)) ;;
     l <- get ;;
     logs_append ("Found Email: " ++ var_email l))
    (fun e =>
       if isinstance_NoSuchElementException e
       then logs_append "Email element not found."
       else raise e).

(** Lines 114-121. *)
Definition close_modal (wait : WebDriverWait) : M W scrape_locals unit :=
  try_except
    (close_modal_button <-
       perform (wait_until wait element_to_be_clickable XPATH CLOSE_MODAL_BUTTON) ;;
     perform (element_click close_modal_button) ;;
     logs_append "Closed the carrier details modal.")
    (fun e =>
       if isinstance_TimeoutException e || isinstance_NoSuchElementException e
       then logs_append
              "No explicit close button for modal found or not clickable."
       else raise e).

(** Lines 78-126: the details, and the two handlers that turn a missing
    result link into "no match". *)
Definition extract_details (driver : string) (wait : WebDriverWait)
    (number : string) : M W scrape_locals unit :=
  try_except
    (open_carrier_details driver wait ;;
     read_name driver ;;
     read_phone driver ;;
     read_email driver ;;
     close_modal wait)
    (fun e =>
       if isinstance_TimeoutException e then
         logs_append ("Timeout: No SMS result link found or page did not load within time for number "
                      ++ number ++ ". Skipping details extraction.")
       else if isinstance_NoSuchElementException e then
         logs_append ("Element not found: " ++ str e ++ " for number "
                      ++ number ++ ". Skipping details extraction.")
       else raise e).

Definition _perform_single_scrape (driver : string) (wait : WebDriverWait)
    (website_url number : string)
  : M W scrape_locals (string * string * string) :=
  assign (fun _ => mkScrapeLocals NA NA NA) ;;
  try_except
    (submit_search driver wait website_url number ;;
     extract_details driver wait number)
    (fun e =>
       if isinstance_WebDriverException e then
         logs_append ("WebDriver error for number " ++ number ++ ": " ++ str e
                      ++ ". Browser might have crashed or disconnected.") ;;
         raise e
       else
         logs_append ("An unexpected error occurred for number " ++ number
                      ++ ": " ++ str e)) ;;
  l <- get ;;
  ret (var_email l, var_name l, var_phone l).

(** Lines 142-149: the body of the loop over the lines of the file. *)
Definition read_line (line : string) : M W (list string) unit :=
  let stripped_line := strip line in
  if negb (is_empty stripped_line) then
    if startswith stripped_line "234" && (10 <=? len stripped_line) then
      assign (fun numbers => (numbers ++ [slice_from 3 stripped_line])%list)
    else if isdigit stripped_line then
      assign (fun numbers => (numbers ++ [stripped_line])%list)
    else
      logs_append ("Skipping malformed line in file: '" ++ stripped_line ++ "'")
  else ret tt.

(** The local variable is [numbers].  Opening and decoding the file is
    one call: it delivers the whole text or raises.  The code decodes
    while it iterates, so that when a late line cannot be decoded its
    [logs] already hold the notes of the lines before; the exception it
    raises and the numbers it returns are the same. *)
Definition _read_numbers_from_file_api (filepath : string)
  : M W (list string) (list string) :=
  assign (fun _ => []) ;;
  try_except
    (f <- perform (open_read filepath) ;;
     for_each (file_lines f) read_line ;;
     numbers <- get ;;
     (if is_nil numbers
      then logs_append "No valid numbers found in the file after filtering."
      else ret tt) ;;
     ret numbers)
    (fun e =>
       if isinstance_FileNotFoundError e then
         logs_append ("Error: Numbers file not found at '" ++ filepath ++ "'.") ;;
         raise (http_exception 400
                  ("Numbers file not found at '" ++ filepath ++ "'."))
       else
         logs_append ("Error reading numbers file: " ++ str e) ;;
         raise (http_exception 500 ("Error reading numbers file: " ++ str e))).

(** Lines 193-201 (and 265-273): one turn of the loop over the numbers. *)
Definition scrape_number (driver : string) (wait : WebDriverWait)
    (website_url number : string) : M W batch_locals unit :=
  try_except
    (r <- call_with (mkScrapeLocals NA NA NA)
            (_perform_single_scrape driver wait website_url number) ;;
     let '(email, name, phone) := r in
     assign (results_append (mkScrapeResult number email name phone)) ;;
     assign processed_count_incr)
    (fun e =>
       assign (errors_append ("Failed to process number " ++ number ++ ": "
                              ++ str e)) ;;
       logs_append ("Error processing " ++ number ++ ": " ++ str e) ;;
       assign (results_append (mkScrapeResult number NA NA NA)) ;;
       assign processed_count_incr).

(** Lines 184-201 (and 256-273): the body of the [try]. *)
Definition start_and_scrape (website_url : string)
    (numbers_to_scrape : list string) : M W batch_locals unit :=
  logs_append "Initializing Firefox WebDriver..." ;;
  service <- perform GeckoDriverManager_install ;;
  let options := ["--headless"] in
  driver <- perform (webdriver_Firefox service options) ;;
  assign (set_driver (Some driver)) ;;
  let wait := mkWebDriverWait driver SELENIUM_WAIT_TIMEOUT in
  logs_append "WebDriver initialized." ;;
  for_each numbers_to_scrape (scrape_number driver wait website_url).

(** Lines 203-210 (and 275-282): the two handlers of that [try]. *)
Definition fatal_handlers {A} (e : exn) : M W batch_locals A :=
  if isinstance_WebDriverException e then
    let error_msg :=
      "Critical WebDriver error during initialization or execution: "
      ++ str e
      ++ ". Ensure Firefox and GeckoDriver are correctly set up on the server." in
    logs_append error_msg ;;
    raise (http_exception 500 error_msg)
  else
    let error_msg := "An unexpected server error occurred: " ++ str e in
    logs_append error_msg ;;
    raise (http_exception 500 error_msg).

(** Lines 211-217 (and 283-289): the [finally] of that [try]. *)
Definition quit_driver : M W batch_locals unit :=
  l <- get ;;
  match var_driver l with
  | Some driver =>
      try_except
        (perform (driver_quit driver) ;;
         logs_append "WebDriver gracefully quit.")
        (fun e =>
           if isinstance_WebDriverException e
           then logs_append
                  "WebDriver already closed or in an invalid state during quit."
           else raise e)
  | None => ret tt
  end.

(** Lines 177-217 (and 250-289): fresh accumulators, then the session. *)
Definition run_batch (website_url : string)
    (numbers_to_scrape : list string) : M W batch_locals unit :=
  assign (fun _ => mkBatchLocals None [] [] 0) ;;
  try_finally
    (try_except (start_and_scrape website_url numbers_to_scrape)
                fatal_handlers)
    quit_driver.

(** Lines 219-225 (and 302-308). *)
Definition make_response : M W batch_locals ScrapeResponse :=
  l <- get ;;
  ret (mkScrapeResponse
         (if is_nil (var_errors l) then "success" else "completed_with_errors")
         (if is_nil (var_errors l) then "Scraping completed."
          else "Scraping completed with some errors. Check 'errors' list.")
         (var_results l)
         (var_processed_count l)
         (var_errors l)).

Definition scrape_by_numbers (request : ScrapeRequest)
  : M W batch_locals ScrapeResponse :=
  let website_url := website_url request in
  let numbers_to_scrape := numbers request in
  if is_nil numbers_to_scrape then
    raise (http_exception 400 "No numbers provided for scraping.")
  else
    logs_new ;;
    run_batch website_url numbers_to_scrape ;;
    make_response.

(** Lines 296-300: remove the temporary file. *)
Definition remove_upload (file_path : string) : M W batch_locals unit :=
  found <- perform (os_path_exists file_path) ;;
  if String.eqb found "True" then
    perform (os_remove file_path) ;;
    logs_append ("Cleaned up temporary file: " ++ file_path)
  else ret tt.

(** The world lets lines 298-299 remove the temporary file. *)
Definition upload_removed (w : W) (file_path : string) : Prop :=
  match respond w (os_path_exists file_path) with
  | (w', Returns found) =>
      if String.eqb found "True" then
        match respond w' (os_remove file_path) with
        | (_, Returns _) => True
        | (_, Raises _) => False
        end
      else True
  | (_, Raises _) => False
  end.

(** [numbers_file] is known by its file name; its bytes reach the
    temporary file through [save_upload]. *)
Definition scrape_by_file (website_url numbers_file_filename : string)
  : M W batch_locals ScrapeResponse :=
  let file_path := os_path_join TEMP_UPLOAD_DIR numbers_file_filename in
  logs_new ;;
  try_finally
    (try_except
       (perform (save_upload file_path) ;;
        logs_append ("Uploaded file saved to " ++ file_path) ;;
        numbers_to_scrape <-
          call_with [] (_read_numbers_from_file_api file_path) ;;
        if is_nil numbers_to_scrape then
          raise (http_exception 400
                   "No valid numbers found in the uploaded file.")
        else
          run_batch website_url numbers_to_scrape)
       (fun e =>
          if isinstance_HTTPException e then raise e
          else
            logs_append ("Error during file processing: " ++ str e) ;;
            raise (http_exception 500 ("Error processing file: " ++ str e))))
    (remove_upload file_path) ;;
  make_response.

End Program.

Arguments perform {W} respond {L} c st.

(** ** The parser's contract, line by line

    What section 4.4 of the specification settles for one raw line; the
    parser of [main.py] is compared with it below. *)

Inductive line_kind : Type :=
| Blank
| Accepted (identifier : string)
| Malformed (trimmed : string).

Definition classify (line : string) : line_kind :=
  let trimmed := strip line in
  if is_empty trimmed then Blank
  else if startswith trimmed "234" && (10 <=? len trimmed)
       then Accepted (slice_from 3 trimmed)
  else if isdigit trimmed then Accepted trimmed
  else Malformed trimmed.

Definition identifier_of (line : string) : list string :=
  match classify line with Accepted i => [i] | _ => [] end.

Definition note_of (line : string) : list string :=
  match classify line with
  | Malformed t => ["Skipping malformed line in file: '" ++ t ++ "'"]
  | _ => []
  end.

Definition identifiers_of (lines : list string) : list string :=
  flat_map identifier_of lines.

Definition notes_of (lines : list string) : list string :=
  flat_map note_of lines.

Definition no_numbers_note (identifiers : list string) : list string :=
  if is_nil identifiers
  then ["No valid numbers found in the file after filtering."]
  else [].

(** The frame [_perform_single_scrape] starts in. *)
Definition fresh : scrape_locals := mkScrapeLocals NA NA NA.

(** A field lookup that found the element, or did not. *)
Definition absent_or_found (r : exn + string) : Prop :=
  match r with
  | inr _ => True
  | inl e => cls e = NoSuchElementException
  end.


(** The entry of the error list for a number that failed with [e]. *)
Definition error_entry (number : string) (e : exn) : string :=
  "Failed to process number " ++ number ++ ": " ++ str e.

(** ** Worlds used to run the program on concrete inputs *)

Definition an_exn (c : exn_class) (text : string) : exn := mkExn c text.

(** A page on which every element is found and every text is [text]. *)
Definition plain_reply (text : string) (c : call) : reply :=
  match c with
  | element_text _ => Returns text
  | os_path_exists _ => Returns "True"
  | _ => Returns "handle"
  end.

(** The result link never shows up. *)
Definition world_no_match (w : unit) (c : call) : unit * reply :=
  match c with
  | wait_until _ presence_of_element_located CSS_SELECTOR sel =>
      if String.eqb sel SMS_RESULT_LINK
      then (w, Raises (an_exn TimeoutException "Message: "))
      else (w, plain_reply "x" c)
  | _ => (w, plain_reply "x" c)
  end.

(** The details panel shows a name and nothing else, and has no close
    control. *)
Definition world_name_only (w : unit) (c : call) : unit * reply :=
  match c with
  | find_element _ _ sel =>
      if String.eqb sel NAME_ELEMENT then (w, Returns "name-span")
      else (w, Raises (an_exn NoSuchElementException "Unable to locate element"))
  | element_text _ => (w, Returns "  ACME FREIGHT LLC ")
  | wait_until _ _ XPATH _ =>
      (w, Raises (an_exn TimeoutException "Message: "))
  | _ => (w, plain_reply "x" c)
  end.

(** The driver process is gone: the HTTP client of the binding raises an
    error that is not a [WebDriverException]. *)
Definition world_connection_refused (w : unit) (c : call) : unit * reply :=
  match c with
  | driver_get _ _ => (w, Raises (an_exn Exception "Connection refused"))
  | _ => (w, plain_reply "x" c)
  end.

(** The browser fails when the number 666 is typed. *)
Definition world_crash_on_666 (w : unit) (c : call) : unit * reply :=
  match c with
  | element_send_keys _ keys =>
      if String.eqb keys "666"
      then (w, Raises (an_exn WebDriverException "Failed to decode response from marionette"))
      else (w, plain_reply "x" c)
  | _ => (w, plain_reply "x" c)
  end.

(** No driver binary can be installed. *)
Definition world_no_geckodriver (w : unit) (c : call) : unit * reply :=
  match c with
  | GeckoDriverManager_install =>
      (w, Raises (an_exn Exception "Could not reach host. Are you offline?"))
  | _ => (w, plain_reply "x" c)
  end.

(** The browser cannot be launched. *)
Definition world_no_firefox (w : unit) (c : call) : unit * reply :=
  match c with
  | webdriver_Firefox _ _ =>
      (w, Raises (an_exn WebDriverException "Process unexpectedly closed with status 1"))
  | _ => (w, plain_reply "x" c)
  end.

(** Closing the session raises an error of the operating system. *)
Definition world_quit_oserror (w : unit) (c : call) : unit * reply :=
  match c with
  | driver_quit _ => (w, Raises (an_exn Exception "[Errno 3] No such process"))
  | _ => (w, plain_reply "x" c)
  end.

(** Closing the session raises a [WebDriverException]. *)
Definition world_quit_dead_session (w : unit) (c : call) : unit * reply :=
  match c with
  | driver_quit _ =>
      (w, Raises (an_exn WebDriverException "Tried to run command without establishing a connection"))
  | _ => (w, plain_reply "x" c)
  end.

(** Everything works; every field reads [x]. *)
Definition world_fine (w : unit) (c : call) : unit * reply :=
  (w, plain_reply "x" c).

Definition newline : string := String "010"%char EmptyString.

(** The uploaded file holds a blank line and a line of letters. *)
Definition world_file_without_numbers (w : unit) (c : call) : unit * reply :=
  match c with
  | open_read _ => (w, Returns ("   " ++ newline ++ "abc" ++ newline))
  | _ => (w, plain_reply "x" c)
  end.

(** The uploaded file of the parser's examples. *)
Definition world_file_mixed (w : unit) (c : call) : unit * reply :=
  match c with
  | open_read _ =>
      (w, Returns ("2348012345678" ++ newline ++ " 12345 " ++ newline
                   ++ newline ++ "12a45" ++ newline ++ "12345"))
  | _ => (w, plain_reply "x" c)
  end.

Definition start_state {L} (l : L) : state unit L := mkState l tt [] [].

Definition empty_batch : batch_locals := mkBatchLocals None [] [] 0.

Definition the_wait : WebDriverWait :=
  mkWebDriverWait "handle" SELENIUM_WAIT_TIMEOUT.

(** Events a run added to the trace. *)
Definition new_events {W L L'} (st : state W L) (st' : state W L')
  : list event :=
  skipn (List.length (trace st)) (trace st').

(** Every event a run of [m] adds to the trace satisfies [p]. *)
Definition emits {W L A} (p : event -> bool) (m : M W L A) : Prop :=
  forall st st' r,
    m st = (st', r) ->
    exists tr, trace st' = (trace st ++ tr)%list /\ forallb p tr = true.

(** A run of [m] leaves the local variables as they were. *)
Definition keeps_locals {W L A} (m : M W L A) : Prop :=
  forall st st' r, m st = (st', r) -> locals st' = locals st.

Definition outside_browser (ev : event) : bool := negb (is_browser_call ev).

(** A reply that raises a plain [WebDriverException]: a fault of the
    transport or of the session, not a timeout or a missing element. *)
Definition transport_fault (ev : event) : bool :=
  match snd ev with
  | Raises e =>
      match cls e with WebDriverException => true | _ => false end
  | Returns _ => false
  end.

(** A run of [m] that meets a transport fault ends by raising it. *)
Definition escalates {W L A} (m : M W L A) : Prop :=
  forall st st' r,
    m st = (st', r) ->
    exists tr,
      trace st' = (trace st ++ tr)%list /\
      (existsb transport_fault tr = true ->
       exists e, r = inl e /\ cls e = WebDriverException).

Definition no_event (ev : event) : bool := false.

(** Neither the end nor the successful start of a session. *)
Definition inside_session (ev : event) : bool :=
  negb (is_quit ev) && negb (is_session_start ev).

(** A call of the session start that did not bring a session up. *)
Definition failed_start (ev : event) : bool :=
  is_session_start ev && negb (is_opened ev) && negb (is_quit ev).

(** What becomes of the batch when closing the session is answered by
    [rq]: only a [WebDriverException] is swallowed. *)
Definition quit_outcome (rq : reply) : exn + unit :=
  match rq with
  | Returns _ => inr tt
  | Raises e => if isinstance_WebDriverException e then inr tt else inl e
  end.

(** ** Further notions used to describe runs *)

(** What the parser may hand over as an identifier: a string of digits,
    or what is left of a prefixed line, seven characters at least. *)
Definition plausible_identifier (i : string) : Prop :=
  i <> EmptyString /\ (isdigit i = true \/ 7 <= len i).

(** A call made on the page or its elements. *)
Definition is_page_call (c : call) : bool :=
  match c with
  | driver_get _ _ | wait_until _ _ _ _ | find_element _ _ _
  | element_click _ | element_clear _ | element_send_keys _ _
  | element_text _ | execute_script _ _ => true
  | _ => false
  end.

(** The two calls that remove the temporary file. *)
Definition is_cleanup_call (ev : event) : bool :=
  match fst ev with
  | os_path_exists _ | os_remove _ => true
  | _ => false
  end.

Definition before_cleanup (ev : event) : bool := negb (is_cleanup_call ev).

(** A call to the file system names the path [file_path]. *)
Definition on_path (file_path : string) (ev : event) : bool :=
  match fst ev with
  | save_upload p | open_read p | os_path_exists p | os_remove p =>
      String.eqb p file_path
  | _ => true
  end.

(** What follows the look-up of the temporary file in the trace. *)
Definition removal_after (file_path : string) (rx : reply)
    (rest : list event) : Prop :=
  match rx with
  | Returns found =>
      if String.eqb found "True"
      then exists ry, rest = [(os_remove file_path, ry)]
      else rest = []
  | Raises _ => rest = []
  end.

(** The uploaded file holds one number; closing the session raises an
    error of the operating system. *)
Definition world_upload_quit_oserror (w : unit) (c : call) : unit * reply :=
  match c with
  | open_read _ => (w, Returns "12345")
  | driver_quit _ => (w, Raises (an_exn Exception "[Errno 3] No such process"))
  | _ => (w, plain_reply "x" c)
  end.

(** The temporary file cannot be read back. *)
Definition world_upload_unreadable (w : unit) (c : call) : unit * reply :=
  match c with
  | open_read _ =>
      (w, Raises (an_exn Exception "'utf-8' codec can't decode byte 0xff"))
  | _ => (w, plain_reply "x" c)
  end.

(** The temporary file is gone before it is read. *)
Definition world_upload_vanished (w : unit) (c : call) : unit * reply :=
  match c with
  | open_read _ =>
      (w, Raises (an_exn FileNotFoundError "[Errno 2] No such file or directory"))
  | _ => (w, plain_reply "x" c)
  end.

(** The exception [_read_numbers_from_file_api] raises when opening the
    file raised [e]. *)
Definition read_failure (filepath : string) (e : exn) : exn :=
  if isinstance_FileNotFoundError e
  then http_exception 400 ("Numbers file not found at '" ++ filepath ++ "'.")
  else http_exception 500 ("Error reading numbers file: " ++ str e).




(** Whenever a run of [m] raises, some call of that run raised the
    same exception. *)
Definition traced {W L A} (m : M W L A) : Prop :=
  forall st st' r,
    m st = (st', r) ->
    exists tr : list event,
      trace st' = (trace st ++ tr)%list /\
      forall e, r = inl e -> exists c, In (c, Raises e) tr.

(** Since the trace was [base], every entry of the error list names a
    number whose record is the all-default one and a
    [WebDriverException] that a call made since then raised. *)
Definition justified_since {W} (base : list event)
    (s : state W batch_locals) : Prop :=
  exists tr : list event,
    trace s = (base ++ tr)%list /\
    forall entry,
      In entry (var_errors (locals s)) ->
      exists number e c,
        entry = error_entry number e /\
        isinstance_WebDriverException e = true /\
        In (c, Raises e) tr /\
        In (default_result number) (var_results (locals s)).

(** [s == s.strip()] *)
Definition trimmed (s : string) : Prop := strip s = s.

Definition trimmed_locals (l : scrape_locals) : Prop :=
  trimmed (var_email l) /\ trimmed (var_name l) /\ trimmed (var_phone l).

Definition trimmed_record (r : ScrapeResult) : Prop :=
  trimmed (email r) /\ trimmed (name r) /\ trimmed (phone r).

(** A run of [m] keeps [P] true of the local variables. *)
Definition preserves {W L A} (P : L -> Prop) (m : M W L A) : Prop :=
  forall st st' r, P (locals st) -> m st = (st', r) -> P (locals st').

(** A call on the page made through the session [driver], waits being
    bounded by the configured timeout. *)
Definition uses_session (driver : string) (ev : event) : bool :=
  match fst ev with
  | driver_get d _ | find_element d _ _ | execute_script d _ =>
      String.eqb d driver
  | wait_until w _ _ _ =>
      String.eqb (wait_driver w) driver
      && (wait_timeout w =? SELENIUM_WAIT_TIMEOUT)
  | element_click _ | element_clear _ | element_send_keys _ _
  | element_text _ => true
  | _ => false
  end.

(** A [WebDriverException] that is neither a timeout nor a missing
    element. *)
Definition is_plain_webdriver (e : exn) : bool :=
  match cls e with WebDriverException => true | _ => false end.

(** The search form never becomes usable. *)
Definition world_form_timeout (w : unit) (c : call) : unit * reply :=
  match c with
  | wait_until _ element_to_be_clickable CSS_SELECTOR _ =>
      (w, Raises (an_exn TimeoutException "Message: "))
  | _ => (w, plain_reply "x" c)
  end.

(** The name is read, then the look-up of the phone times out. *)
Definition world_phone_timeout (w : unit) (c : call) : unit * reply :=
  match c with
  | find_element _ _ sel =>
      if String.eqb sel PHONE_ELEMENT
      then (w, Raises (an_exn TimeoutException "Message: "))
      else (w, Returns "span")
  | element_text _ => (w, Returns " ACME FREIGHT LLC")
  | _ => (w, plain_reply "x" c)
  end.

(** Neither the end of a session nor a session that came up. *)
Definition no_session_change (ev : event) : bool :=
  negb (is_quit ev) && negb (is_opened ev).

(** A run of [m] closes a session as often as it opens one, and opens
    one at most. *)
Definition balanced {W L A} (m : M W L A) : Prop :=
  forall st st' r,
    m st = (st', r) ->
    exists tr : list event,
      trace st' = (trace st ++ tr)%list /\
      count_events is_quit tr = count_events is_opened tr /\
      (count_events is_opened tr <= 1)%nat.

(** The uploaded file holds one number and the browser cannot be
    launched. *)
Definition world_upload_no_firefox (w : unit) (c : call) : unit * reply :=
  match c with
  | open_read _ => (w, Returns "12345")
  | webdriver_Firefox _ _ =>
      (w, Raises (an_exn WebDriverException "Process unexpectedly closed with status 1"))
  | _ => (w, plain_reply "x" c)
  end.

(** Lines 239-295 of [scrape_by_file]: its outer [try] with the two
    handlers, without the [finally]. *)
Definition upload_body {W : Type} (respond : W -> call -> W * reply)
    (website_url file_path : string) : M W batch_locals unit :=
  try_except
    (perform respond (save_upload file_path) ;;
     logs_append ("Uploaded file saved to " ++ file_path) ;;
     numbers_to_scrape <-
       call_with [] (_read_numbers_from_file_api respond file_path) ;;
     if is_nil numbers_to_scrape then
       raise (http_exception 400
                "No valid numbers found in the uploaded file.")
     else
       run_batch respond website_url numbers_to_scrape)
    (fun e =>
       if isinstance_HTTPException e then raise e
       else
         logs_append ("Error during file processing: " ++ str e) ;;
         raise (http_exception 500 ("Error processing file: " ++ str e))).

(** The uploaded file holds no number and the temporary file cannot be
    removed. *)
Definition world_upload_unremovable (w : unit) (c : call) : unit * reply :=
  match c with
  | open_read _ => (w, Returns ("   " ++ newline ++ "abc" ++ newline))
  | os_remove _ =>
      (w, Raises (an_exn Exception "[Errno 13] Permission denied"))
  | _ => (w, plain_reply "x" c)
  end.



(** * Theorems *)

Open Scope list_scope.

(** ** The identifier list parser *)

Section Parser.

Context {W : Type}.
Variable respond : W -> call -> W * reply.

Lemma read_line_classify (line : string) (st : state W (list string)) :
  read_line line st =
  (mkState (locals st ++ identifier_of line) (world st) (trace st)
           (logs st ++ note_of line), inr tt).
Proof.
  unfold read_line, identifier_of, note_of, classify.
  destruct st as [l w tr lg]; simpl.
  destruct (is_empty (strip line)); simpl.
  - now rewrite !app_nil_r.
  - destruct (startswith (strip line) "234" && (10 <=? len (strip line))).
    + unfold assign; simpl. now rewrite app_nil_r.
    + destruct (isdigit (strip line)).
      * unfold assign; simpl. now rewrite app_nil_r.
      * unfold logs_append; simpl. now rewrite app_nil_r.
Qed.

Lemma read_lines_classify (lines : list string) :
  forall st : state W (list string),
    for_each lines read_line st =
    (mkState (locals st ++ identifiers_of lines) (world st) (trace st)
             (logs st ++ notes_of lines), inr tt).
Proof.
  induction lines as [|line rest IH]; intros [l w tr lg]; simpl.
  - unfold ret. now rewrite !app_nil_r.
  - unfold bind. rewrite read_line_classify. rewrite IH. simpl.
    now rewrite !app_assoc.
Qed.

Lemma read_numbers_run
    (filepath text : string) (st : state W (list string)) (w' : W) :
  respond (world st) (open_read filepath) = (w', Returns text) ->
  _read_numbers_from_file_api respond filepath st =
  (mkState (identifiers_of (file_lines text)) w'
           (trace st ++ [(open_read filepath, Returns text)])
           (logs st ++ notes_of (file_lines text)
                    ++ no_numbers_note (identifiers_of (file_lines text))),
   inr (identifiers_of (file_lines text))).
Proof.
  intros Hopen.
  unfold _read_numbers_from_file_api, try_except, bind, assign, perform.
  simpl. rewrite Hopen. rewrite read_lines_classify. simpl.
  unfold get, no_numbers_note. simpl.
  destruct (identifiers_of (file_lines text)); simpl.
  - unfold logs_append, ret; simpl. now rewrite app_assoc.
  - unfold ret; simpl. now rewrite !app_nil_r.
Qed.

(** C3.  The loop over the raw lines appends, in the order of the lines
    and with their duplicates, the identifier of every line that the
    line-by-line contract accepts (blank lines give nothing, a trimmed
    line of ten characters or more that starts with 234 loses that
    prefix, any other all-digit line is kept as it is) and logs one note
    for every malformed line; and when the file can be read the parser
    returns exactly these identifiers, adding only the final "no valid
    numbers" note of an empty result. *)
Theorem read_numbers_follows_contract
    (filepath text : string) (st : state W (list string)) (w' : W) :
  respond (world st) (open_read filepath) = (w', Returns text) ->
  (forall (lines : list string) (s : state W (list string)),
      for_each lines read_line s =
      (mkState (locals s ++ identifiers_of lines) (world s) (trace s)
               (logs s ++ notes_of lines), inr tt)) /\
  _read_numbers_from_file_api respond filepath st =
  (mkState (identifiers_of (file_lines text)) w'
           (trace st ++ [(open_read filepath, Returns text)])
           (logs st ++ notes_of (file_lines text)
                    ++ no_numbers_note (identifiers_of (file_lines text))),
   inr (identifiers_of (file_lines text))).
Proof.
  intros Hopen. split.
  - exact read_lines_classify.
  - exact (read_numbers_run filepath text st w' Hopen).
Qed.

End Parser.

Lemma read_numbers_follows_contract_witness :
  _read_numbers_from_file_api world_file_mixed "numbers.txt" (start_state ["stale"]) =
  (mkState ["8012345678"; "12345"; "12345"] tt
     [(open_read "numbers.txt",
       Returns ("2348012345678" ++ newline ++ " 12345 " ++ newline
                ++ newline ++ "12a45" ++ newline ++ "12345")%string)]
     ["Skipping malformed line in file: '12a45'"],
   inr ["8012345678"; "12345"; "12345"]).
Proof.
  exact (proj2 (read_numbers_follows_contract world_file_mixed "numbers.txt" _
                  (start_state ["stale"]) tt eq_refl)).
Defined.

(** C9.  The parser does not guarantee numeric output: a line of ten
    characters that starts with 234 is accepted with its prefix removed
    although what remains has letters in it, and an all-digit line that
    starts with 234 but is shorter than ten characters is accepted with
    the prefix left in place. *)
Theorem parser_output_not_always_numeric :
  (exists line,
      startswith (strip line) "234" = true /\
      10 <= len (strip line) /\
      isdigit (slice_from 3 (strip line)) = false /\
      forall (W : Type) (st : state W (list string)),
        locals (fst (read_line line st)) =
        locals st ++ [slice_from 3 (strip line)]) /\
  (exists line,
      startswith (strip line) "234" = true /\
      len (strip line) < 10 /\
      isdigit (strip line) = true /\
      forall (W : Type) (st : state W (list string)),
        locals (fst (read_line line st)) = locals st ++ [strip line]).
Proof.
  split.
  - exists "234abcdefg". repeat split; try reflexivity.
    all: vm_compute; discriminate.
  - exists "2345". repeat split; reflexivity.
Qed.

(** ** Equations of the monad *)

Section MonadFacts.

Context {W L : Type}.

Lemma bind_inr {A B} (m : M W L A) (k : A -> M W L B) st st' a :
  m st = (st', inr a) -> bind m k st = k a st'.
Proof. intros H. unfold bind. now rewrite H. Qed.

Lemma bind_inl {A B} (m : M W L A) (k : A -> M W L B) st st' e :
  m st = (st', inl e) -> bind m k st = (st', inl e).
Proof. intros H. unfold bind. now rewrite H. Qed.

Lemma try_except_inr {A} (m : M W L A) (h : exn -> M W L A) st st' a :
  m st = (st', inr a) -> try_except m h st = (st', inr a).
Proof. intros H. unfold try_except. now rewrite H. Qed.

Lemma try_except_inl {A} (m : M W L A) (h : exn -> M W L A) st st' e :
  m st = (st', inl e) -> try_except m h st = h e st'.
Proof. intros H. unfold try_except. now rewrite H. Qed.

Lemma emits_ret {A} p (a : A) : emits p (@ret W L A a).
Proof.
  intros st st' r H. inversion H; subst. exists []. now rewrite app_nil_r.
Qed.

Lemma emits_raise {A} p e : emits p (@raise W L A e).
Proof.
  intros st st' r H. inversion H; subst. exists []. now rewrite app_nil_r.
Qed.

Lemma emits_get p : emits p (@get W L).
Proof.
  intros st st' r H. inversion H; subst. exists []. now rewrite app_nil_r.
Qed.

Lemma emits_assign p f : emits p (@assign W L f).
Proof.
  intros st st' r H. inversion H; subst. exists []. simpl.
  now rewrite app_nil_r.
Qed.

Lemma emits_logs_append p s : emits p (@logs_append W L s).
Proof.
  intros st st' r H. inversion H; subst. exists []. simpl.
  now rewrite app_nil_r.
Qed.

Lemma emits_logs_new p : emits p (@logs_new W L).
Proof.
  intros st st' r H. inversion H; subst. exists []. simpl.
  now rewrite app_nil_r.
Qed.

Lemma emits_bind {A B} p (m : M W L A) (k : A -> M W L B) :
  emits p m -> (forall a, emits p (k a)) -> emits p (bind m k).
Proof.
  intros Hm Hk st st' r H. unfold bind in H.
  destruct (m st) as [s1 [e | a]] eqn:E.
  - inversion H; subst. eauto.
  - destruct (Hm _ _ _ E) as [t1 [E1 F1]].
    destruct (Hk a _ _ _ H) as [t2 [E2 F2]].
    exists (t1 ++ t2). rewrite E2, E1, app_assoc, forallb_app, F1, F2. auto.
Qed.

Lemma emits_try_except {A} p (m : M W L A) (h : exn -> M W L A) :
  emits p m -> (forall e, emits p (h e)) -> emits p (try_except m h).
Proof.
  intros Hm Hh st st' r H. unfold try_except in H.
  destruct (m st) as [s1 [e | a]] eqn:E.
  - destruct (Hm _ _ _ E) as [t1 [E1 F1]].
    destruct (Hh e _ _ _ H) as [t2 [E2 F2]].
    exists (t1 ++ t2). rewrite E2, E1, app_assoc, forallb_app, F1, F2. auto.
  - inversion H; subst. eauto.
Qed.

Lemma emits_try_finally {A} p (m : M W L A) (fin : M W L unit) :
  emits p m -> emits p fin -> emits p (try_finally m fin).
Proof.
  intros Hm Hf st st' r H. unfold try_finally in H.
  destruct (m st) as [s1 r1] eqn:E.
  destruct (fin s1) as [s2 [e | u]] eqn:F; inversion H; subst;
    destruct (Hm _ _ _ E) as [t1 [E1 F1]];
    destruct (Hf _ _ _ F) as [t2 [E2 F2]];
    exists (t1 ++ t2); rewrite E2, E1, app_assoc, forallb_app, F1, F2; auto.
Qed.

Lemma emits_if {A} p (b : bool) (m1 m2 : M W L A) :
  emits p m1 -> emits p m2 -> emits p (if b then m1 else m2).
Proof. now destruct b. Qed.

Lemma emits_for_each {X} p (xs : list X) (body : X -> M W L unit) :
  (forall x, emits p (body x)) -> emits p (for_each xs body).
Proof.
  intros Hb. induction xs as [|x rest IH]; simpl.
  - apply emits_ret.
  - apply emits_bind; auto.
Qed.

Lemma emits_call_with {L' A} p (frame : L') (m : M W L' A) :
  emits p m -> emits p (@call_with W L L' A frame m).
Proof.
  intros Hm st st' r H. unfold call_with in H.
  destruct (m (enter frame st)) as [s1 r1] eqn:E. inversion H; subst.
  destruct (Hm _ _ _ E) as [t1 [E1 F1]]. exists t1. simpl in *. auto.
Qed.

Lemma emits_perform (respond : W -> call -> W * reply) p c :
  (forall r, p (c, r) = true) -> emits p (@perform W respond L c).
Proof.
  intros Hp st st' r H. unfold perform in H.
  destruct (respond (world st) c) as [w' rep].
  exists [(c, rep)].
  destruct rep; inversion H; subst; simpl; now rewrite Hp.
Qed.

End MonadFacts.

Create HintDb emits.
#[export] Hint Resolve emits_ret emits_raise emits_get emits_assign
  emits_logs_append emits_logs_new emits_bind emits_try_except
  emits_try_finally emits_if emits_for_each emits_call_with : emits.

Ltac emits_calls :=
  repeat (intros;
          first [ apply emits_bind | apply emits_try_except
                | apply emits_try_finally | apply emits_if
                | apply emits_for_each | apply emits_call_with
                | apply emits_ret | apply emits_raise | apply emits_get
                | apply emits_assign | apply emits_logs_append
                | apply emits_logs_new
                | apply emits_perform; intros; reflexivity ]).

Section Extractor.

Context {W : Type}.
Variable respond : W -> call -> W * reply.

Lemma single_scrape_inside_session driver wait website_url number :
  emits inside_session
        (_perform_single_scrape respond driver wait website_url number).
Proof.
  unfold _perform_single_scrape, submit_search, extract_details,
    open_carrier_details, read_name, read_phone, read_email, close_modal.
  emits_calls.
Qed.

End Extractor.

(** ** The loop over the numbers *)

Section Batch.

Context {W : Type}.
Variable respond : W -> call -> W * reply.

Lemma scrape_number_returns driver wait website_url number
    (st : state W batch_locals) s1 em nm ph :
  _perform_single_scrape respond driver wait website_url number (enter fresh st)
  = (s1, inr (em, nm, ph)) ->
  scrape_number respond driver wait website_url number st =
  (mkState (processed_count_incr
              (results_append (mkScrapeResult number em nm ph) (locals st)))
           (world s1) (trace s1) (logs s1), inr tt).
Proof.
  intros H. unfold scrape_number, try_except, bind, call_with.
  fold fresh. rewrite H. reflexivity.
Qed.

Lemma scrape_number_raises driver wait website_url number
    (st : state W batch_locals) s1 e :
  _perform_single_scrape respond driver wait website_url number (enter fresh st)
  = (s1, inl e) ->
  scrape_number respond driver wait website_url number st =
  (mkState (processed_count_incr
              (results_append (default_result number)
                 (errors_append (error_entry number e) (locals st))))
           (world s1) (trace s1)
           (logs s1 ++ [("Error processing " ++ number ++ ": " ++ str e)%string]),
   inr tt).
Proof.
  intros H. unfold scrape_number, try_except, bind, call_with.
  fold fresh. rewrite H. reflexivity.
Qed.

Lemma scrape_number_inside_session driver wait website_url number :
  emits inside_session (scrape_number respond driver wait website_url number).
Proof.
  unfold scrape_number. apply emits_try_except.
  - apply emits_bind.
    + apply emits_call_with, single_scrape_inside_session.
    + intros [[em nm] ph]. emits_calls.
  - emits_calls.
Qed.

(** One turn of the loop always completes, adds one record for its
    number and counts it; the error list grows by at most one entry. *)
Lemma scrape_number_total driver wait website_url number
    (st : state W batch_locals) :
  exists st' r,
    scrape_number respond driver wait website_url number st = (st', inr tt) /\
    var_results (locals st') = var_results (locals st) ++ [r] /\
    number_searched r = number /\
    var_processed_count (locals st') = var_processed_count (locals st) + 1 /\
    var_driver (locals st') = var_driver (locals st) /\
    (var_errors (locals st') = var_errors (locals st) \/
     exists entry, var_errors (locals st') = var_errors (locals st) ++ [entry]).
Proof.
  destruct (_perform_single_scrape respond driver wait website_url number (enter fresh st))
    as [s1 [e | [[em nm] ph]]] eqn:E.
  - rewrite (scrape_number_raises _ _ _ _ _ _ _ E).
    eexists; eexists; split; [reflexivity|]. simpl. repeat split; eauto.
  - rewrite (scrape_number_returns _ _ _ _ _ _ _ _ _ E).
    eexists; eexists; split; [reflexivity|]. simpl. repeat split; eauto.
Qed.

Lemma scrape_loop_total driver wait website_url (numbers : list string) :
  forall st : state W batch_locals,
  exists st',
    for_each numbers (scrape_number respond driver wait website_url) st = (st', inr tt) /\
    map number_searched (var_results (locals st')) =
      map number_searched (var_results (locals st)) ++ numbers /\
    var_processed_count (locals st') =
      var_processed_count (locals st) + Z.of_nat (List.length numbers) /\
    var_driver (locals st') = var_driver (locals st).
Proof.
  induction numbers as [|number rest IH]; intros st.
  - exists st. simpl. unfold ret. rewrite app_nil_r.
    repeat split; auto. lia.
  - destruct (scrape_number_total driver wait website_url number st)
      as [s1 [r [E [Hr [Hn [Hc [Hd _]]]]]]].
    destruct (IH s1) as [s2 [E2 [Hr2 [Hc2 Hd2]]]].
    exists s2. simpl for_each. rewrite (bind_inr _ _ _ _ _ E).
    split; [exact E2|]. rewrite Hr2, Hc2, Hd2, Hr, Hc, Hd, map_app.
    simpl map. rewrite Hn, <- app_assoc. simpl.
    repeat split; auto. lia.
Qed.

Lemma start_and_scrape_failed website_url numbers
    (st : state W batch_locals) w1 e :
  open_session respond (world st) = (w1, Raises e) ->
  exists tr,
    start_and_scrape respond website_url numbers st =
    (mkState (locals st) w1 (trace st ++ tr)
             (logs st ++ ["Initializing Firefox WebDriver..."%string]), inl e) /\
    forallb failed_start tr = true.
Proof.
  unfold open_session. intros H.
  unfold start_and_scrape, bind, logs_append, perform. simpl.
  destruct (respond (world st) GeckoDriverManager_install)
    as [wa [service | e1]] eqn:E1.
  - simpl. rewrite H. rewrite <- app_assoc.
    eexists. split; [reflexivity | reflexivity].
  - inversion H; subst. eexists. split; reflexivity.
Qed.

Lemma start_and_scrape_opened website_url numbers
    (st : state W batch_locals) w1 driver :
  open_session respond (world st) = (w1, Returns driver) ->
  exists service s2 tr,
    start_and_scrape respond website_url numbers st = (s2, inr tt) /\
    trace s2 = trace st
               ++ [(GeckoDriverManager_install, Returns service);
                   (webdriver_Firefox service ["--headless"%string],
                    Returns driver)]
               ++ tr /\
    forallb inside_session tr = true /\
    var_driver (locals s2) = Some driver /\
    map number_searched (var_results (locals s2)) =
      map number_searched (var_results (locals st)) ++ numbers /\
    var_processed_count (locals s2) =
      var_processed_count (locals st) + Z.of_nat (List.length numbers).
Proof.
  unfold open_session. intros H.
  destruct (respond (world st) GeckoDriverManager_install)
    as [wa [service | e1]] eqn:E1; [|discriminate].
  set (s1 := mkState (set_driver (Some driver) (locals st)) w1
               (trace st
                ++ [(GeckoDriverManager_install, Returns service);
                    (webdriver_Firefox service ["--headless"%string],
                     Returns driver)])
               (logs st ++ ["Initializing Firefox WebDriver..."%string;
                            "WebDriver initialized."%string])).
  destruct (scrape_loop_total driver
              (mkWebDriverWait driver SELENIUM_WAIT_TIMEOUT)
              website_url numbers s1) as [s2 [E [Hr [Hc Hd]]]].
  assert (Ht : emits inside_session
                 (for_each numbers
                    (scrape_number respond driver
                       (mkWebDriverWait driver SELENIUM_WAIT_TIMEOUT)
                       website_url)))
    by (apply emits_for_each; intros; apply scrape_number_inside_session).
  destruct (Ht _ _ _ E) as [tr [Etr Ftr]].
  exists service, s2, tr.
  split.
  - unfold start_and_scrape, bind, logs_append, perform, assign. simpl.
    rewrite E1. simpl. rewrite H. simpl.
    rewrite <- !app_assoc. simpl. exact E.
  - rewrite Etr. subst s1. simpl in *. rewrite <- app_assoc.
    repeat split; auto.
Qed.

Lemma run_batch_failed website_url numbers
    (st : state W batch_locals) w1 e :
  open_session respond (world st) = (w1, Raises e) ->
  exists tr detail lg,
    run_batch respond website_url numbers st =
    (mkState empty_batch w1 (trace st ++ tr) lg,
     inl (http_exception 500 detail)) /\
    forallb failed_start tr = true.
Proof.
  intros H.
  destruct (start_and_scrape_failed website_url numbers
              (mkState empty_batch (world st) (trace st) (logs st)) w1 e H)
    as [tr [E F]].
  simpl in E. exists tr.
  unfold run_batch, bind, assign, try_finally, try_except. simpl.
  fold empty_batch. rewrite E. unfold fatal_handlers.
  destruct (isinstance_WebDriverException e);
    (eexists; eexists; split; [reflexivity | exact F]).
Qed.

Lemma run_batch_opened website_url numbers
    (st : state W batch_locals) w1 driver :
  open_session respond (world st) = (w1, Returns driver) ->
  exists service tr wl wq rq final,
    respond wl (driver_quit driver) = (wq, rq) /\
    run_batch respond website_url numbers st = (final, quit_outcome rq) /\
    trace final = trace st
                  ++ [(GeckoDriverManager_install, Returns service);
                      (webdriver_Firefox service ["--headless"%string],
                       Returns driver)]
                  ++ tr ++ [(driver_quit driver, rq)] /\
    forallb inside_session tr = true /\
    map number_searched (var_results (locals final)) = numbers /\
    var_processed_count (locals final) = Z.of_nat (List.length numbers).
Proof.
  intros H.
  destruct (start_and_scrape_opened website_url numbers
              (mkState empty_batch (world st) (trace st) (logs st))
              w1 driver H)
    as [service [s2 [tr [E [Etr [Ftr [Hd [Hr Hc]]]]]]]].
  simpl in E, Etr, Hr, Hc.
  destruct (respond (world s2) (driver_quit driver)) as [wq rq] eqn:Q.
  exists service, tr, (world s2), wq, rq.
  unfold run_batch, bind, assign, try_finally, try_except. simpl.
  fold empty_batch. rewrite E.
  unfold quit_driver, bind, get, try_except, perform. rewrite Hd, Q.
  destruct rq as [v | e]; simpl.
  - eexists. split; [reflexivity|]. split; [reflexivity|]. simpl.
    rewrite Etr, <- !app_assoc. simpl. auto.
  - destruct (isinstance_WebDriverException e); simpl;
      (eexists; split; [reflexivity|]; split; [reflexivity|]; simpl;
       rewrite Etr, <- !app_assoc; simpl; auto).
Qed.

End Batch.

(** ** Counting events *)

Lemma new_events_app {W L L'} (st : state W L) (st' : state W L') tr :
  trace st' = trace st ++ tr -> new_events st st' = tr.
Proof.
  intros H. unfold new_events. rewrite H.
  rewrite skipn_app, skipn_all, Nat.sub_diag. reflexivity.
Qed.

Lemma count_events_app p (a b : list event) :
  count_events p (a ++ b) = (count_events p a + count_events p b)%nat.
Proof. unfold count_events. now rewrite filter_app, length_app. Qed.

Lemma count_events_none p q (tr : list event) :
  (forall ev, q ev = true -> p ev = false) ->
  forallb q tr = true -> count_events p tr = 0%nat.
Proof.
  intros Hpq. induction tr as [|ev rest IH]; simpl; intros H; [reflexivity|].
  apply andb_true_iff in H as [H1 H2]. unfold count_events in *. simpl.
  rewrite (Hpq _ H1). auto.
Qed.

Lemma inside_session_not_quit ev : inside_session ev = true -> is_quit ev = false.
Proof.
  unfold inside_session. intros H. apply andb_true_iff in H as [H _].
  now apply negb_true_iff in H.
Qed.

Lemma inside_session_not_opened ev :
  inside_session ev = true -> is_opened ev = false.
Proof.
  unfold inside_session. destruct ev as [[] []]; simpl; auto; discriminate.
Qed.

Lemma failed_start_not_quit ev : failed_start ev = true -> is_quit ev = false.
Proof.
  unfold failed_start. intros H. apply andb_true_iff in H as [_ H].
  now apply negb_true_iff in H.
Qed.

Lemma failed_start_not_opened ev :
  failed_start ev = true -> is_opened ev = false.
Proof.
  unfold failed_start. intros H. apply andb_true_iff in H as [H _].
  apply andb_true_iff in H as [_ H]. now apply negb_true_iff in H.
Qed.

(** ** The endpoint [scrape_by_numbers] *)

Section Endpoint.

Context {W : Type}.
Variable respond : W -> call -> W * reply.

Lemma scrape_by_numbers_nonempty request (st : state W batch_locals) :
  numbers request <> [] ->
  scrape_by_numbers respond request st =
  (logs_new ;;
   run_batch respond (website_url request) (numbers request) ;;
   make_response) st.
Proof.
  intros H. unfold scrape_by_numbers.
  destruct (numbers request); [contradiction | reflexivity].
Qed.

(** C1.  Whenever the batch driver returns a response, its records are
    those of the input identifiers, one each and in the order of the
    input, and [total_processed] is the number of identifiers, failed
    ones included.  It does return one when the list is not empty, the
    session starts and closing it raises nothing but a
    [WebDriverException]. *)
Theorem batch_one_result_per_number
    (request : ScrapeRequest) (st : state W batch_locals) :
  (forall st' response,
      scrape_by_numbers respond request st = (st', inr response) ->
      map number_searched (results response) = numbers request /\
      List.length (results response) = List.length (numbers request) /\
      total_processed response = Z.of_nat (List.length (numbers request))) /\
  (forall w1 driver,
      numbers request <> [] ->
      open_session respond (world st) = (w1, Returns driver) ->
      (forall w e, snd (respond w (driver_quit driver)) = Raises e ->
                   isinstance_WebDriverException e = true) ->
      exists st' response,
        scrape_by_numbers respond request st = (st', inr response)).
Proof.
  split.
  - intros st' response H.
    destruct (numbers request) as [|n ns] eqn:N.
    { unfold scrape_by_numbers in H. rewrite N in H. discriminate. }
    rewrite scrape_by_numbers_nonempty in H by (rewrite N; discriminate).
    rewrite N in H. unfold bind at 1 in H. unfold logs_new at 1 in H.
    set (s0 := mkState (locals st) (world st) (trace st) []) in H.
    destruct (open_session respond (world s0)) as [w1 [driver | e]] eqn:O.
    + destruct (run_batch_opened respond (website_url request) (n :: ns)
                  s0 w1 driver O)
        as [service [tr [wl [wq [rq [final [_ [E [_ [_ [Hr Hc]]]]]]]]]]].
      rewrite (bind_inr _ _ _ final tt) in H.
      * unfold make_response, bind, get, ret in H. inversion H; subst.
        simpl. split; [exact Hr|]. split; [|exact Hc].
        rewrite <- (length_map number_searched), Hr. reflexivity.
      * rewrite E. destruct (quit_outcome rq) as [e | []] eqn:Q;
          [|reflexivity].
        rewrite (bind_inl _ _ _ final e) in H by (now rewrite E).
        discriminate.
    + destruct (run_batch_failed respond (website_url request) (n :: ns)
                  s0 w1 e O) as [tr [detail [lg [E _]]]].
      rewrite (bind_inl _ _ _ _ _ E) in H. discriminate.
  - intros w1 driver N O Q.
    rewrite scrape_by_numbers_nonempty by exact N.
    unfold bind at 1. unfold logs_new at 1.
    set (s0 := mkState (locals st) (world st) (trace st) []).
    destruct (run_batch_opened respond (website_url request)
                (numbers request) s0 w1 driver O)
      as [service [tr [wl [wq [rq [final [R [E _]]]]]]]].
    assert (Hq : quit_outcome rq = inr tt).
    { destruct rq as [v | e]; [reflexivity|]. simpl.
      rewrite (Q wl e); [reflexivity|]. now rewrite R. }
    rewrite Hq in E. rewrite (bind_inr _ _ _ _ _ E).
    unfold make_response, bind, get, ret. eauto.
Qed.

(** C5.  If the session cannot be started for a non-empty batch, the
    endpoint ends with one [HTTPException] of status 500 and returns no
    response: no record and no error entry was produced, no number was
    looked up, and nothing is closed. *)
Theorem session_start_failure_is_fatal
    (request : ScrapeRequest) (st : state W batch_locals) (w1 : W) (e : exn) :
  numbers request <> [] ->
  open_session respond (world st) = (w1, Raises e) ->
  exists st' detail,
    scrape_by_numbers respond request st
    = (st', inl (http_exception 500 detail)) /\
    var_results (locals st') = [] /\
    var_errors (locals st') = [] /\
    forallb failed_start (new_events st st') = true /\
    count_events is_quit (new_events st st') = 0%nat.
Proof.
  intros N O.
  rewrite scrape_by_numbers_nonempty by exact N.
  unfold bind at 1. unfold logs_new at 1.
  set (s0 := mkState (locals st) (world st) (trace st) []).
  destruct (run_batch_failed respond (website_url request)
              (numbers request) s0 w1 e O) as [tr [detail [lg [E F]]]].
  rewrite (bind_inl _ _ _ _ _ E).
  eexists; exists detail. split; [reflexivity|].
  rewrite (new_events_app st _ tr) by reflexivity.
  repeat split; auto.
  apply (count_events_none _ failed_start); auto using failed_start_not_quit.
Qed.

(** C8, amended.  On every run of the endpoint the session is closed as
    many times as it was opened, and it is opened at most once: once
    closed when it came up, never when it did not.  A
    [WebDriverException] raised while closing is swallowed: the response
    is returned all the same. *)
Theorem session_closed_once_per_open
    (request : ScrapeRequest) (st st' : state W batch_locals)
    (r : exn + ScrapeResponse) :
  scrape_by_numbers respond request st = (st', r) ->
  count_events is_quit (new_events st st')
  = count_events is_opened (new_events st st') /\
  (count_events is_opened (new_events st st') <= 1)%nat /\
  (forall driver e,
      In (driver_quit driver, Raises e) (new_events st st') ->
      isinstance_WebDriverException e = true ->
      exists response, r = inr response).
Proof.
  intros H.
  destruct (numbers request) as [|n ns] eqn:N.
  { unfold scrape_by_numbers in H. rewrite N in H. inversion H; subst.
    rewrite (new_events_app st' st' []) by (now rewrite app_nil_r).
    repeat split; auto. intros ? ? []. }
  rewrite scrape_by_numbers_nonempty in H by (rewrite N; discriminate).
  rewrite N in H. unfold bind at 1 in H. unfold logs_new at 1 in H.
  set (s0 := mkState (locals st) (world st) (trace st) []) in H.
  destruct (open_session respond (world s0)) as [w1 [driver | e]] eqn:O.
  - destruct (run_batch_opened respond (website_url request) (n :: ns)
                s0 w1 driver O)
      as [service [tr [wl [wq [rq [final [_ [E [T [F _]]]]]]]]]].
    assert (Hst' : trace st' = trace final).
    { unfold bind in H. rewrite E in H.
      destruct (quit_outcome rq) as [e | []]; inversion H; reflexivity. }
    rewrite (new_events_app st st' _ (eq_trans Hst' T)).
    rewrite !count_events_app.
    rewrite (count_events_none is_quit inside_session tr
               inside_session_not_quit F).
    rewrite (count_events_none is_opened inside_session tr
               inside_session_not_opened F).
    split; [reflexivity|]. split; [unfold count_events; simpl; lia|].
    intros d e Hin He.
    assert (Hrq : rq = Raises e).
    { simpl in Hin. destruct Hin as [Hin | [Hin | Hin]]; try discriminate.
      apply in_app_or in Hin as [Hin | [Hin | []]].
      - apply (proj1 (forallb_forall _ _) F) in Hin.
        apply inside_session_not_quit in Hin. discriminate.
      - now inversion Hin. }
    subst rq. unfold bind in H. rewrite E in H. simpl in H.
    rewrite He in H. unfold make_response, bind, get, ret in H.
    inversion H. eauto.
  - destruct (run_batch_failed respond (website_url request) (n :: ns)
                s0 w1 e O) as [tr [detail [lg [E F]]]].
    rewrite (bind_inl _ _ _ _ _ E) in H. inversion H; subst.
    rewrite (new_events_app st _ tr) by reflexivity.
    rewrite (count_events_none is_quit failed_start tr
               failed_start_not_quit F).
    rewrite (count_events_none is_opened failed_start tr
               failed_start_not_opened F).
    repeat split; auto.
    intros d e' Hin _.
    apply (proj1 (forallb_forall _ _) F) in Hin.
    apply failed_start_not_quit in Hin. discriminate.
Qed.

End Endpoint.

Lemma batch_one_result_per_number_witness :
  exists st' response,
    scrape_by_numbers world_crash_on_666
      (mkScrapeRequest DEFAULT_WEBSITE_URL ["12345"; "666"; "12345"])%string
      (start_state empty_batch) = (st', inr response) /\
    map number_searched (results response) = ["12345"; "666"; "12345"]%string /\
    total_processed response = 3.
Proof.
  destruct (batch_one_result_per_number world_crash_on_666
              (mkScrapeRequest DEFAULT_WEBSITE_URL ["12345"; "666"; "12345"])%string
              (start_state empty_batch)) as [H1 H2].
  destruct (H2 tt "handle"%string) as [st' [response E]].
  - discriminate.
  - reflexivity.
  - intros w e H. discriminate H.
  - exists st', response. split; [exact E|].
    destruct (H1 _ _ E) as [A [_ C]]. split; assumption.
Defined.

Lemma session_start_failure_is_fatal_witness :
  exists st' detail,
    scrape_by_numbers world_no_firefox
      (mkScrapeRequest DEFAULT_WEBSITE_URL ["12345"]%string)
      (start_state empty_batch)
    = (st', inl (http_exception 500 detail)) /\
    var_results (locals st') = [] /\
    var_errors (locals st') = [].
Proof.
  destruct (session_start_failure_is_fatal world_no_firefox
              (mkScrapeRequest DEFAULT_WEBSITE_URL ["12345"]%string)
              (start_state empty_batch) tt
              (an_exn WebDriverException
                 "Process unexpectedly closed with status 1"))
    as [st' [detail [E [R [F _]]]]].
  - discriminate.
  - reflexivity.
  - exists st', detail. auto.
Defined.

Lemma session_closed_once_per_open_witness :
  exists st' response,
    scrape_by_numbers world_quit_dead_session
      (mkScrapeRequest DEFAULT_WEBSITE_URL ["12345"]%string)
      (start_state empty_batch) = (st', inr response) /\
    count_events is_quit (new_events (start_state empty_batch) st') = 1%nat /\
    count_events is_opened (new_events (start_state empty_batch) st') = 1%nat.
Proof.
  eexists. eexists.
  assert (E : scrape_by_numbers world_quit_dead_session
                (mkScrapeRequest DEFAULT_WEBSITE_URL ["12345"]%string)
                (start_state empty_batch)
              = (fst (scrape_by_numbers world_quit_dead_session
                        (mkScrapeRequest DEFAULT_WEBSITE_URL ["12345"]%string)
                        (start_state empty_batch)),
                 inr (mkScrapeResponse "success" "Scraping completed."
                        [mkScrapeResult "12345" "x" "x" "x"] 1 [])%string))
    by (vm_compute; reflexivity).
  split; [exact E|].
  destruct (session_closed_once_per_open world_quit_dead_session _ _ _ _ E)
    as [Q _].
  split; [rewrite Q|]; vm_compute; reflexivity.
Defined.

(** C8 as stated fails: an error raised while closing that is not a
    [WebDriverException] leaves the endpoint instead of the response. *)
Lemma closing_error_can_propagate :
  let run := scrape_by_numbers world_quit_oserror
               (mkScrapeRequest DEFAULT_WEBSITE_URL ["12345"]%string)
               (start_state empty_batch) in
  List.last (trace (fst run)) (GeckoDriverManager_install, Returns NA)
  = (driver_quit "handle",
     Raises (an_exn Exception "[Errno 3] No such process")) /\
  snd run = inl (an_exn Exception "[Errno 3] No such process").
Proof. vm_compute. split; reflexivity. Qed.

(** ** Transport faults inside the extractor *)

Section Transport.

Context {W L : Type}.
Variable respond : W -> call -> W * reply.

Lemma escalates_of_silent {A} (m : M W L A) :
  emits no_event m -> escalates m.
Proof.
  intros Hm st st' r H. destruct (Hm _ _ _ H) as [tr [E F]].
  exists tr. split; [exact E|].
  destruct tr; simpl in *; discriminate.
Qed.

Lemma escalates_perform c : escalates (@perform W respond L c).
Proof.
  intros st st' r H. unfold perform in H.
  destruct (respond (world st) c) as [w' [v | e]]; inversion H; subst;
    eexists; (split; [reflexivity|]); unfold transport_fault; simpl.
  - discriminate.
  - destruct (cls e) eqn:C; try discriminate. eauto.
Qed.

Lemma escalates_bind {A B} (m : M W L A) (k : A -> M W L B) :
  escalates m -> (forall a, escalates (k a)) -> escalates (bind m k).
Proof.
  intros Hm Hk st st' r H. unfold bind in H.
  destruct (m st) as [s1 [e | a]] eqn:E.
  - inversion H; subst. destruct (Hm _ _ _ E) as [t1 [E1 F1]].
    exists t1. split; [exact E1|]. intros X.
    destruct (F1 X) as [e' [Y C]]. inversion Y; subst e'. eauto.
  - destruct (Hm _ _ _ E) as [t1 [E1 F1]].
    destruct (Hk a _ _ _ H) as [t2 [E2 F2]].
    exists (t1 ++ t2). split; [now rewrite E2, E1, app_assoc|].
    rewrite existsb_app. intros X. apply orb_true_iff in X as [X | X].
    + destruct (F1 X) as [e [Y _]]. discriminate.
    + exact (F2 X).
Qed.

Lemma escalates_try_except {A} (m : M W L A) (h : exn -> M W L A) :
  escalates m ->
  (forall e, emits no_event (h e)) ->
  (forall e st st' r,
      cls e = WebDriverException -> h e st = (st', r) -> r = inl e) ->
  escalates (try_except m h).
Proof.
  intros Hm Hs Hr st st' r H. unfold try_except in H.
  destruct (m st) as [s1 [e | a]] eqn:E.
  - destruct (Hm _ _ _ E) as [t1 [E1 F1]].
    destruct (Hs e _ _ _ H) as [t2 [E2 F2]].
    assert (t2 = []) by (destruct t2; [reflexivity | discriminate]).
    subst t2. rewrite app_nil_r in E2. exists t1.
    split; [now rewrite E2|].
    intros X. destruct (F1 X) as [e' [Y C]]. inversion Y; subst e'.
    rewrite (Hr e _ _ _ C H). eauto.
  - inversion H; subst. exact (Hm _ _ _ E).
Qed.

End Transport.

Ltac reraises :=
  let C := fresh "C" in
  let H := fresh "H" in
  intros ? ? ? ? C H;
  unfold isinstance_NoSuchElementException, isinstance_TimeoutException,
    isinstance_WebDriverException in H;
  rewrite C in H; simpl in H;
  unfold bind, logs_append, raise in H; simpl in H;
  inversion H; reflexivity.

Ltac escalates_calls :=
  repeat (intros;
          first [ apply escalates_bind | apply escalates_try_except
                | apply escalates_perform
                | solve [apply escalates_of_silent; emits_calls] ]);
  try solve [emits_calls];
  try solve [reraises].

Section TransportExtractor.

Context {W : Type}.
Variable respond : W -> call -> W * reply.

(** A plain [WebDriverException] met anywhere in the extractor leaves
    it: no handler on the way takes it, and the last one re-raises. *)
Lemma single_scrape_escalates driver wait website_url number :
  escalates (_perform_single_scrape respond driver wait website_url number).
Proof.
  unfold _perform_single_scrape, submit_search, extract_details,
    open_carrier_details, read_name, read_phone, read_email, close_modal.
  escalates_calls.
Qed.

End TransportExtractor.

(** ** Faults of one identifier *)

Section Faults.

Context {W : Type}.
Variable respond : W -> call -> W * reply.

(** The extractor lets nothing but a [WebDriverException] out: every
    other exception is logged and swallowed by its last handler. *)
Lemma single_scrape_raises_only_webdriver driver wait website_url number
    (st s1 : state W scrape_locals) e :
  _perform_single_scrape respond driver wait website_url number st
  = (s1, inl e) ->
  isinstance_WebDriverException e = true.
Proof.
  unfold _perform_single_scrape. unfold bind at 1 2. unfold assign at 1.
  unfold try_except at 1.
  destruct ((submit_search respond driver wait website_url number;;
             extract_details respond driver wait number) _)
    as [s [e0 | []]].
  - destruct (isinstance_WebDriverException e0) eqn:I.
    + unfold bind, logs_append, raise. intros H. inversion H; subst. exact I.
    + unfold bind, logs_append, get, ret. discriminate.
  - unfold bind, get, ret. discriminate.
Qed.

Lemma for_each_app {L X} (xs ys : list X) (body : X -> M W L unit) st :
  for_each (xs ++ ys) body st = (for_each xs body ;; for_each ys body) st.
Proof.
  revert st. induction xs as [|x rest IH]; intros st; simpl.
  - reflexivity.
  - unfold bind. destruct (body x st) as [s1 [e | []]]; auto.
Qed.

Lemma scrape_loop_grows driver wait website_url (numbers : list string) :
  forall st : state W batch_locals,
  exists st' records later,
    for_each numbers (scrape_number respond driver wait website_url) st
    = (st', inr tt) /\
    var_results (locals st') = var_results (locals st) ++ records /\
    map number_searched records = numbers /\
    var_errors (locals st') = var_errors (locals st) ++ later /\
    (List.length later <= List.length numbers)%nat.
Proof.
  induction numbers as [|number rest IH]; intros st.
  - exists st, [], []. simpl. rewrite !app_nil_r. auto.
  - destruct (scrape_number_total respond driver wait website_url number st)
      as [s1 [r [E [Hr [Hn [_ [_ He]]]]]]].
    destruct (IH s1) as [s2 [records [later [E2 [Hr2 [Hm [He2 Hl]]]]]]].
    simpl for_each. rewrite (bind_inr _ _ _ _ _ E).
    destruct He as [He | [entry He]].
    + exists s2, (r :: records), later. rewrite Hr2, He2, Hr, He.
      rewrite <- app_assoc. simpl. rewrite Hn, Hm. repeat split; auto.
    + exists s2, (r :: records), (entry :: later).
      rewrite Hr2, He2, Hr, He, <- !app_assoc. simpl. rewrite Hn, Hm.
      repeat split; auto. lia.
Qed.

(** C2, amended.  A fault that leaves the extractor, which is always a
    [WebDriverException], is caught by the loop: the number gets the
    all-default record, the error list gets exactly one entry for it,
    the number is counted, and the loop goes on with the numbers that
    follow. *)
Theorem escaping_fault_is_recorded driver wait website_url number
    (st : state W batch_locals) (s1 : state W scrape_locals) (e : exn) :
  _perform_single_scrape respond driver wait website_url number
    (enter fresh st) = (s1, inl e) ->
  isinstance_WebDriverException e = true /\
  exists st',
    scrape_number respond driver wait website_url number st = (st', inr tt) /\
    var_results (locals st')
    = var_results (locals st) ++ [default_result number] /\
    var_errors (locals st')
    = var_errors (locals st) ++ [error_entry number e] /\
    var_processed_count (locals st') = var_processed_count (locals st) + 1 /\
    forall rest,
      for_each (number :: rest)
               (scrape_number respond driver wait website_url) st
      = for_each rest (scrape_number respond driver wait website_url) st'.
Proof.
  intros H. split.
  - exact (single_scrape_raises_only_webdriver _ _ _ _ _ _ _ H).
  - eexists. split; [exact (scrape_number_raises _ _ _ _ _ _ _ _ H)|].
    simpl. repeat split.
    intros rest. rewrite (bind_inr _ _ _ _ _
                            (scrape_number_raises _ _ _ _ _ _ _ _ H)).
    reflexivity.
Qed.

(** C4.  When the browser raises a [WebDriverException] while one
    identifier of a batch is extracted, the extractor raises it, and the
    loop still completes: the identifier gets the all-default record at
    its place, exactly one entry of the error list is written for it,
    and the identifiers after it are processed, each getting its own
    record. *)
Theorem transport_fault_does_not_stop_batch driver wait website_url
    (before after : list string) (number : string)
    (st s1 : state W batch_locals) (s2 : state W scrape_locals)
    (r : exn + string * string * string) :
  for_each before (scrape_number respond driver wait website_url) st
  = (s1, inr tt) ->
  _perform_single_scrape respond driver wait website_url number
    (enter fresh s1) = (s2, r) ->
  existsb transport_fault (new_events (enter fresh s1) s2) = true ->
  exists e st' earlier later,
    r = inl e /\
    cls e = WebDriverException /\
    for_each (before ++ number :: after)
             (scrape_number respond driver wait website_url) st
    = (st', inr tt) /\
    var_results (locals st')
    = var_results (locals st) ++ earlier ++ default_result number :: later /\
    map number_searched earlier = before /\
    map number_searched later = after /\
    exists entries,
      var_errors (locals st')
      = var_errors (locals s1) ++ error_entry number e :: entries /\
      (List.length entries <= List.length after)%nat.
Proof.
  intros H1 H2 H3.
  destruct (single_scrape_escalates respond driver wait website_url number
              _ _ _ H2) as [tr [T F]].
  rewrite (new_events_app _ _ tr T) in H3.
  destruct (F H3) as [e [-> C]]. clear F H3 T tr.
  destruct (scrape_loop_grows driver wait website_url before st)
    as [s1' [earlier [errs [E1 [R1 [M1 _]]]]]].
  rewrite H1 in E1. inversion E1; subst s1'. clear E1.
  pose proof (scrape_number_raises respond _ _ _ _ _ _ _ H2) as E2.
  set (s3 := mkState
               (processed_count_incr
                  (results_append (default_result number)
                     (errors_append (error_entry number e) (locals s1))))
               (world s2) (trace s2)
               (logs s2 ++ [("Error processing " ++ number ++ ": "
                             ++ str e)%string])) in E2.
  destruct (scrape_loop_grows driver wait website_url after s3)
    as [st' [later [entries [E3 [R3 [M3 [X3 L3]]]]]]].
  exists e, st', earlier, later.
  split; [reflexivity|]. split; [exact C|]. split.
  - rewrite for_each_app. rewrite (bind_inr _ _ _ _ _ H1).
    simpl for_each. rewrite (bind_inr _ _ _ _ _ E2). exact E3.
  - rewrite R3, X3. subst s3. simpl. rewrite R1, <- !app_assoc. simpl.
    repeat split; auto. exists entries. auto.
Qed.

End Faults.

Lemma escaping_fault_is_recorded_witness :
  exists st',
    scrape_number world_crash_on_666 "handle" the_wait DEFAULT_WEBSITE_URL
      "666" (start_state empty_batch) = (st', inr tt) /\
    var_results (locals st') = [default_result "666"] /\
    var_errors (locals st')
    = ["Failed to process number 666: Failed to decode response from marionette"%string].
Proof.
  destruct (escaping_fault_is_recorded world_crash_on_666 "handle" the_wait
              DEFAULT_WEBSITE_URL "666" (start_state empty_batch)
              (fst (_perform_single_scrape world_crash_on_666 "handle"
                      the_wait DEFAULT_WEBSITE_URL "666"
                      (enter fresh (start_state empty_batch))))
              (an_exn WebDriverException
                 "Failed to decode response from marionette"))
    as [_ [st' [E [R [X _]]]]].
  - vm_compute. reflexivity.
  - exists st'. auto.
Defined.

Lemma transport_fault_does_not_stop_batch_witness :
  exists st' earlier later,
    for_each ["12345"; "666"; "777"; "888"]%string
      (scrape_number world_crash_on_666 "handle" the_wait DEFAULT_WEBSITE_URL)
      (start_state empty_batch) = (st', inr tt) /\
    var_results (locals st')
    = earlier ++ default_result "666" :: later /\
    map number_searched earlier = ["12345"]%string /\
    map number_searched later = ["777"; "888"]%string /\
    List.length (var_errors (locals st')) = 1%nat.
Proof.
  destruct (transport_fault_does_not_stop_batch world_crash_on_666 "handle"
              the_wait DEFAULT_WEBSITE_URL ["12345"]%string
              ["777"; "888"]%string "666"
              (start_state empty_batch)
              (fst (for_each ["12345"]%string
                      (scrape_number world_crash_on_666 "handle" the_wait
                         DEFAULT_WEBSITE_URL)
                      (start_state empty_batch)))
              (fst (_perform_single_scrape world_crash_on_666 "handle"
                      the_wait DEFAULT_WEBSITE_URL "666"
                      (enter fresh
                         (fst (for_each ["12345"]%string
                                 (scrape_number world_crash_on_666 "handle"
                                    the_wait DEFAULT_WEBSITE_URL)
                                 (start_state empty_batch))))))
              (inl (an_exn WebDriverException
                      "Failed to decode response from marionette")))
    as [e [st' [earlier [later [_ [_ [E [R [M1 [M2 _]]]]]]]]]].
  - vm_compute. reflexivity.
  - vm_compute. reflexivity.
  - vm_compute. reflexivity.
  - exists st', earlier, later. repeat split; auto.
    assert (E' : for_each ["12345"; "666"; "777"; "888"]%string
                   (scrape_number world_crash_on_666 "handle" the_wait
                      DEFAULT_WEBSITE_URL) (start_state empty_batch)
                 = (st', inr tt)) by exact E.
    vm_compute in E'. inversion E'. reflexivity.
Defined.

(** C2 as stated fails: a fault that is not a [WebDriverException] is
    raised while the number is processed, and the error list stays
    empty. *)
Lemma swallowed_fault_leaves_no_entry :
  let run := scrape_number world_connection_refused "handle" the_wait
               DEFAULT_WEBSITE_URL "12345" (start_state empty_batch) in
  trace (fst run)
  = [(driver_get "handle" DEFAULT_WEBSITE_URL,
      Raises (an_exn Exception "Connection refused"))] /\
  snd run = inr tt /\
  var_errors (locals (fst run)) = [] /\
  var_results (locals (fst run)) = [default_result "12345"].
Proof. vm_compute. repeat split; reflexivity. Qed.

(** ** Local variables of the extractor *)

Section Locals.

Context {W L : Type}.
Variable respond : W -> call -> W * reply.

Lemma keeps_ret {A} (a : A) : keeps_locals (@ret W L A a).
Proof. intros st st' r H. now inversion H. Qed.

Lemma keeps_raise {A} e : keeps_locals (@raise W L A e).
Proof. intros st st' r H. now inversion H. Qed.

Lemma keeps_logs_append s : keeps_locals (@logs_append W L s).
Proof. intros st st' r H. now inversion H. Qed.

Lemma keeps_perform c : keeps_locals (@perform W respond L c).
Proof.
  intros st st' r H. unfold perform in H.
  destruct (respond (world st) c) as [w' [v | e]]; now inversion H.
Qed.

Lemma keeps_bind {A B} (m : M W L A) (k : A -> M W L B) :
  keeps_locals m -> (forall a, keeps_locals (k a)) -> keeps_locals (bind m k).
Proof.
  intros Hm Hk st st' r H. unfold bind in H.
  destruct (m st) as [s1 [e | a]] eqn:E.
  - inversion H; subst. eauto.
  - rewrite (Hk a _ _ _ H). eauto.
Qed.

Lemma keeps_try_except {A} (m : M W L A) (h : exn -> M W L A) :
  keeps_locals m -> (forall e, keeps_locals (h e)) ->
  keeps_locals (try_except m h).
Proof.
  intros Hm Hh st st' r H. unfold try_except in H.
  destruct (m st) as [s1 [e | a]] eqn:E.
  - rewrite (Hh e _ _ _ H). eauto.
  - inversion H; subst. eauto.
Qed.

Lemma keeps_if {A} (b : bool) (m1 m2 : M W L A) :
  keeps_locals m1 -> keeps_locals m2 -> keeps_locals (if b then m1 else m2).
Proof. now destruct b. Qed.

End Locals.

Ltac keeps_calls :=
  repeat (intros;
          first [ apply keeps_bind | apply keeps_try_except | apply keeps_if
                | apply keeps_ret | apply keeps_raise
                | apply keeps_logs_append | apply keeps_perform ]).

Section Fields.

Context {W : Type}.
Variable respond : W -> call -> W * reply.

Lemma submit_search_keeps_locals driver wait website_url number :
  keeps_locals (submit_search respond driver wait website_url number).
Proof. unfold submit_search. keeps_calls. Qed.

Lemma open_carrier_details_keeps_locals driver wait :
  keeps_locals (open_carrier_details respond driver wait).
Proof. unfold open_carrier_details. keeps_calls. Qed.


Lemma no_such_element e :
  cls e = NoSuchElementException -> isinstance_NoSuchElementException e = true.
Proof. unfold isinstance_NoSuchElementException. now intros ->. Qed.

Lemma read_name_field driver (s : state W scrape_locals) :
  absent_or_found (snd (field_text respond driver NAME_ELEMENT s)) ->
  snd (read_name respond driver s) = inr tt /\
  locals (fst (read_name respond driver s))
  = match snd (field_text respond driver NAME_ELEMENT s) with
    | inr text => set_name (strip text) (locals s)
    | inl _ => locals s
    end.
Proof.
  unfold read_name, field_text, try_except, bind, perform.
  destruct (respond (world s) (find_element driver CSS_SELECTOR NAME_ELEMENT))
    as [w1 [el | e]]; simpl.
  - destruct (respond w1 (element_text el)) as [w2 [t | e]]; simpl; auto.
    intros H. rewrite (no_such_element _ H). simpl. auto.
  - intros H. rewrite (no_such_element _ H). simpl. auto.
Qed.




(** C6.  When the search was submitted and the wait for the result link
    ends in a timeout, the extractor makes no further call and returns
    the all-default triple; the loop appends the all-default record for
    the number and leaves the error list as it was. *)
Theorem no_match_gives_default driver wait website_url number
    (st : state W batch_locals) (sa : state W scrape_locals)
    (w2 : W) (e : exn) :
  submit_search respond driver wait website_url number (enter fresh st)
  = (sa, inr tt) ->
  respond (world sa)
          (wait_until wait presence_of_element_located CSS_SELECTOR
                      SMS_RESULT_LINK) = (w2, Raises e) ->
  cls e = TimeoutException ->
  exists s2 st',
    _perform_single_scrape respond driver wait website_url number
      (enter fresh st) = (s2, inr (NA, NA, NA)) /\
    trace s2
    = trace sa ++ [(wait_until wait presence_of_element_located CSS_SELECTOR
                               SMS_RESULT_LINK, Raises e)] /\
    scrape_number respond driver wait website_url number st = (st', inr tt) /\
    var_results (locals st')
    = var_results (locals st) ++ [default_result number] /\
    var_errors (locals st') = var_errors (locals st).
Proof.
  intros Hs Hw Hc.
  pose proof (submit_search_keeps_locals _ _ _ _ _ _ _ Hs) as Hl.
  simpl in Hl.
  assert (Ho : (open_carrier_details respond driver wait ;;
                read_name respond driver ;;
                read_phone respond driver ;;
                read_email respond driver ;;
                close_modal respond wait) sa
               = (mkState (locals sa) w2
                    (trace sa
                     ++ [(wait_until wait presence_of_element_located
                                     CSS_SELECTOR SMS_RESULT_LINK, Raises e)])
                    (logs sa), inl e)).
  { apply bind_inl. unfold open_carrier_details.
    apply bind_inl. unfold perform. rewrite Hw. reflexivity. }
  assert (He : exists lg,
             extract_details respond driver wait number sa
             = (mkState (locals sa) w2
                  (trace sa
                   ++ [(wait_until wait presence_of_element_located
                                   CSS_SELECTOR SMS_RESULT_LINK, Raises e)])
                  lg, inr tt)).
  { unfold extract_details. rewrite (try_except_inl _ _ _ _ _ Ho).
    unfold isinstance_TimeoutException. rewrite Hc.
    eexists. reflexivity. }
  destruct He as [lg He].
  assert (E : _perform_single_scrape respond driver wait website_url number
                (enter fresh st)
              = (mkState (locals sa) w2
                   (trace sa
                    ++ [(wait_until wait presence_of_element_located
                                    CSS_SELECTOR SMS_RESULT_LINK, Raises e)])
                   lg, inr (NA, NA, NA))).
  { unfold _perform_single_scrape.
    rewrite (bind_inr _ _ _ (enter fresh st) tt) by reflexivity.
    erewrite bind_inr.
    2:{ apply try_except_inr. rewrite (bind_inr _ _ _ _ _ Hs). exact He. }
    unfold bind, get, ret. simpl. rewrite Hl. reflexivity. }
  eexists. eexists. split; [exact E|]. split; [reflexivity|].
  split; [exact (scrape_number_returns _ _ _ _ _ _ _ _ _ _ E)|].
  simpl. auto.
Qed.


End Fields.

Lemma no_match_gives_default_witness :
  exists s2 st',
    _perform_single_scrape world_no_match "handle" the_wait
      DEFAULT_WEBSITE_URL "12345" (enter fresh (start_state empty_batch))
    = (s2, inr (NA, NA, NA)) /\
    scrape_number world_no_match "handle" the_wait DEFAULT_WEBSITE_URL
      "12345" (start_state empty_batch) = (st', inr tt) /\
    var_results (locals st') = [default_result "12345"] /\
    var_errors (locals st') = [].
Proof.
  destruct (no_match_gives_default world_no_match "handle" the_wait
              DEFAULT_WEBSITE_URL "12345" (start_state empty_batch)
              (fst (submit_search world_no_match "handle" the_wait
                      DEFAULT_WEBSITE_URL "12345"
                      (enter fresh (start_state empty_batch))))
              tt (an_exn TimeoutException "Message: "))
    as [s2 [st' [E [_ [E2 [R X]]]]]].
  - vm_compute. reflexivity.
  - reflexivity.
  - reflexivity.
  - exists s2, st'. auto.
Defined.



(** ** Empty input *)

Section EmptyInput.

Context {W : Type}.
Variable respond : W -> call -> W * reply.

Lemma scrape_by_file_body website_url filename :
  scrape_by_file respond website_url filename
  = (logs_new ;;
     try_finally
       (upload_body respond website_url
          (os_path_join TEMP_UPLOAD_DIR filename))
       (remove_upload respond (os_path_join TEMP_UPLOAD_DIR filename)) ;;
     make_response).
Proof. reflexivity. Qed.

(** When the outer [try] of [scrape_by_file] ends with [e1], the
    endpoint ends with an exception after looking for the temporary
    file: with [e1] if the file is removed without error, with the
    error of the removal otherwise. *)
Lemma upload_fails_after_body website_url filename
    (st s1 : state W batch_locals) e1 :
  upload_body respond website_url (os_path_join TEMP_UPLOAD_DIR filename)
    (mkState (locals st) (world st) (trace st) [])
  = (s1, inl e1) ->
  exists st' e rx rest,
    scrape_by_file respond website_url filename st = (st', inl e) /\
    trace st'
    = trace s1
      ++ (os_path_exists (os_path_join TEMP_UPLOAD_DIR filename), rx)
         :: rest /\
    forallb is_cleanup_call rest = true /\
    (upload_removed respond (world s1)
       (os_path_join TEMP_UPLOAD_DIR filename) -> e = e1).
Proof.
  set (file_path := os_path_join TEMP_UPLOAD_DIR filename).
  intros H. rewrite scrape_by_file_body. fold file_path.
  unfold bind at 1. unfold logs_new at 1.
  unfold bind at 1. unfold try_finally. rewrite H.
  unfold upload_removed, remove_upload, bind, perform.
  destruct (respond (world s1) (os_path_exists file_path))
    as [w3 [found | e3]].
  - cbn [locals world trace logs].
    destruct (String.eqb found "True").
    + cbn [locals world trace logs].
      destruct (respond w3 (os_remove file_path)) as [w4 [v | e4]].
      * unfold logs_append. cbn [locals world trace logs].
        eexists. exists e1. eexists. eexists.
        split; [reflexivity|]. cbn [trace]. rewrite <- app_assoc.
        split; [reflexivity|]. split; [reflexivity | auto].
      * eexists. exists e4. eexists. eexists.
        split; [reflexivity|]. cbn [trace]. rewrite <- app_assoc.
        split; [reflexivity|]. split; [reflexivity | contradiction].
    + unfold ret. eexists. exists e1. eexists. exists [].
      split; [reflexivity|]. cbn [trace].
      split; [reflexivity|]. split; [reflexivity | auto].
  - eexists. exists e3. eexists. exists [].
    split; [reflexivity|]. cbn [trace].
    split; [reflexivity|]. split; [reflexivity | contradiction].
Qed.

Lemma upload_body_without_numbers website_url file_path
    (s0 : state W batch_locals) w1 saved w2 text :
  respond (world s0) (save_upload file_path) = (w1, Returns saved) ->
  respond w1 (open_read file_path) = (w2, Returns text) ->
  identifiers_of (file_lines text) = [] ->
  exists lg,
    upload_body respond website_url file_path s0
    = (mkState (locals s0) w2
         (trace s0 ++ [(save_upload file_path, Returns saved);
                       (open_read file_path, Returns text)]) lg,
       inl (http_exception 400
              "No valid numbers found in the uploaded file.")).
Proof.
  intros Hs Ho Hi.
  unfold upload_body, try_except. unfold bind at 1. unfold perform at 1.
  rewrite Hs. unfold bind at 1. unfold logs_append at 1.
  unfold bind at 1. unfold call_with at 1.
  rewrite (read_numbers_run respond file_path text _ w2) by exact Ho.
  rewrite Hi. cbn [is_nil leave enter locals world trace logs].
  unfold raise at 1. cbn [isinstance_HTTPException http_exception cls].
  unfold raise. rewrite <- app_assoc. eexists. reflexivity.
Qed.

Lemma cleanup_is_outside_browser (tr : list event) :
  forallb is_cleanup_call tr = true -> forallb outside_browser tr = true.
Proof.
  induction tr as [|[c r] rest IH]; simpl; [reflexivity|].
  intros H. apply andb_true_iff in H as [H1 H2]. rewrite (IH H2).
  destruct c; try discriminate; reflexivity.
Qed.

(** C10, amended.  An empty list of numbers is refused with status 400
    and nothing else happens: no call is made, so no session is opened.
    An uploaded file that was saved and read but holds no valid
    identifier makes the endpoint fail without a response and without
    any call to the browser or its driver; the failure is the status 400
    when the temporary file is removed without error. *)
Theorem empty_input_rejected_before_session :
  (forall (request : ScrapeRequest) (st : state W batch_locals),
      numbers request = [] ->
      scrape_by_numbers respond request st
      = (st, inl (http_exception 400 "No numbers provided for scraping."))) /\
  (forall website_url filename (st : state W batch_locals) w1 saved w2 text,
      respond (world st)
              (save_upload (os_path_join TEMP_UPLOAD_DIR filename))
      = (w1, Returns saved) ->
      respond w1 (open_read (os_path_join TEMP_UPLOAD_DIR filename))
      = (w2, Returns text) ->
      identifiers_of (file_lines text) = [] ->
      exists st' e,
        scrape_by_file respond website_url filename st = (st', inl e) /\
        forallb outside_browser (new_events st st') = true /\
        count_events is_session_start (new_events st st') = 0%nat /\
        (upload_removed respond w2 (os_path_join TEMP_UPLOAD_DIR filename) ->
         e = http_exception 400
               "No valid numbers found in the uploaded file.")).
Proof.
  split.
  - intros request st H. unfold scrape_by_numbers. now rewrite H.
  - intros website_url filename st w1 saved w2 text Hs Ho Hi.
    destruct (upload_body_without_numbers website_url
                (os_path_join TEMP_UPLOAD_DIR filename)
                (mkState (locals st) (world st) (trace st) [])
                w1 saved w2 text Hs Ho Hi) as [lg B].
    destruct (upload_fails_after_body website_url filename st _ _ B)
      as [st' [e [rx [rest [E [T [F R]]]]]]].
    exists st', e. split; [exact E|].
    cbn [trace world] in T, R.
    assert (Hout : forallb outside_browser
                     ([(save_upload (os_path_join TEMP_UPLOAD_DIR filename),
                        Returns saved);
                       (open_read (os_path_join TEMP_UPLOAD_DIR filename),
                        Returns text)]
                      ++ (os_path_exists
                            (os_path_join TEMP_UPLOAD_DIR filename), rx)
                         :: rest) = true).
    { simpl. exact (cleanup_is_outside_browser rest F). }
    rewrite (new_events_app st st' _
               (eq_trans T (eq_sym (app_assoc _ _ _)))).
    split; [exact Hout|]. split; [|exact R].
    apply (count_events_none _ outside_browser); [|exact Hout].
    intros [[] r]; simpl; auto; discriminate.
Qed.

End EmptyInput.

Lemma empty_input_rejected_before_session_witness :
  scrape_by_numbers world_fine (mkScrapeRequest DEFAULT_WEBSITE_URL [])
    (start_state empty_batch)
  = (start_state empty_batch,
     inl (http_exception 400 "No numbers provided for scraping.")) /\
  exists st',
    scrape_by_file world_file_without_numbers DEFAULT_WEBSITE_URL
      "numbers.txt" (start_state empty_batch)
    = (st', inl (http_exception 400
                   "No valid numbers found in the uploaded file.")) /\
    count_events is_session_start (new_events (start_state empty_batch) st')
    = 0%nat.
Proof.
  destruct (empty_input_rejected_before_session world_file_without_numbers)
    as [_ H2].
  split.
  - apply (proj1 (empty_input_rejected_before_session world_fine)).
    reflexivity.
  - destruct (H2 DEFAULT_WEBSITE_URL "numbers.txt"%string
                (start_state empty_batch) tt "handle"%string tt
                ("   " ++ newline ++ "abc" ++ newline)%string)
      as [st' [e [E [_ [C R]]]]].
    + reflexivity.
    + reflexivity.
    + vm_compute. reflexivity.
    + exists st'. rewrite <- (R I). split; assumption.
Defined.

(** C10 as stated fails: the uploaded file holds no identifier, the
    removal of the temporary file raises, and that error leaves the
    endpoint in place of the status 400. *)
Lemma cleanup_error_replaces_status_400 :
  let run := scrape_by_file world_upload_unremovable DEFAULT_WEBSITE_URL
               "numbers.txt" (start_state empty_batch) in
  map fst (trace (fst run))
  = [save_upload "temp_uploads/numbers.txt";
     open_read "temp_uploads/numbers.txt";
     os_path_exists "temp_uploads/numbers.txt";
     os_remove "temp_uploads/numbers.txt"] /\
  snd run = inl (an_exn Exception "[Errno 13] Permission denied").
Proof. vm_compute. split; reflexivity. Qed.

(** * Further properties of the code *)

(** ** What the parser returns *)

Lemma slice_from_length (n : nat) (s : string) :
  String.length (slice_from n s) = (String.length s - n)%nat.
Proof.
  revert s. induction n as [|n IH]; intros s; simpl.
  - now rewrite Nat.sub_0_r.
  - destruct s; simpl; auto.
Qed.

Lemma is_empty_false (s : string) : is_empty s = false -> s <> EmptyString.
Proof. destruct s; simpl; [discriminate | intros _; discriminate]. Qed.

Lemma identifier_of_plausible (line i : string) :
  In i (identifier_of line) -> plausible_identifier i.
Proof.
  unfold identifier_of, classify, plausible_identifier.
  destruct (is_empty (strip line)) eqn:E; [intros []|].
  destruct (startswith (strip line) "234" && (10 <=? len (strip line)))
    eqn:P.
  - intros [<- | []]. apply andb_true_iff in P as [_ P].
    apply Z.leb_le in P. unfold len in *.
    pose proof (slice_from_length 3 (strip line)) as Hl.
    assert (Hlen : 7 <= Z.of_nat (String.length (slice_from 3 (strip line))))
      by lia.
    split; [|right; exact Hlen].
    intros Hnil. rewrite Hnil in Hlen. simpl in Hlen. lia.
  - destruct (isdigit (strip line)) eqn:D; [|intros []].
    intros [<- | []]. split; [now apply is_empty_false | now left].
Qed.

Lemma identifiers_of_plausible (lines : list string) :
  Forall plausible_identifier (identifiers_of lines).
Proof.
  apply Forall_forall. intros i Hi. unfold identifiers_of in Hi.
  apply in_flat_map in Hi as [line [_ Hi]].
  exact (identifier_of_plausible line i Hi).
Qed.

Section ParserResult.

Context {W : Type}.
Variable respond : W -> call -> W * reply.

(** X1.  Whatever the file holds, no identifier the parser returns is empty:
    each is a string of digits or the rest, seven characters or more, of
    a line that began with 234. *)
Theorem read_numbers_never_returns_empty_identifier
    (filepath : string) (st st' : state W (list string))
    (numbers : list string) :
  _read_numbers_from_file_api respond filepath st = (st', inr numbers) ->
  Forall plausible_identifier numbers.
Proof.
  intros H.
  destruct (respond (world st) (open_read filepath)) as [w' [text | e]] eqn:E.
  - rewrite (read_numbers_run respond filepath text st w' E) in H.
    inversion H. apply identifiers_of_plausible.
  - unfold _read_numbers_from_file_api, try_except, bind, assign, perform
      in H. simpl in H. rewrite E in H.
    destruct (isinstance_FileNotFoundError e);
      unfold logs_append, raise in H; simpl in H; discriminate.
Qed.

End ParserResult.

Lemma read_numbers_never_returns_empty_identifier_witness :
  Forall plausible_identifier ["8012345678"; "12345"; "12345"]%string.
Proof.
  exact (read_numbers_never_returns_empty_identifier world_file_mixed
           "numbers.txt" (start_state ["stale"%string]) _ _
           (read_numbers_run world_file_mixed "numbers.txt" _
              (start_state ["stale"%string]) tt eq_refl)).
Defined.

(** ** Calls made by the batch and by the file endpoint *)

Ltac emits_by tac :=
  repeat (intros;
          first [ apply emits_bind | apply emits_try_except
                | apply emits_try_finally | apply emits_if
                | apply emits_for_each | apply emits_call_with
                | apply emits_ret | apply emits_raise | apply emits_get
                | apply emits_assign | apply emits_logs_append
                | apply emits_logs_new
                | apply emits_perform; intros; tac ]).

Section Calls.

Context {W : Type}.
Variable respond : W -> call -> W * reply.
Variable p : event -> bool.

Lemma single_scrape_emits driver wait website_url number :
  (forall c r, is_page_call c = true -> p (c, r) = true) ->
  emits p (_perform_single_scrape respond driver wait website_url number).
Proof.
  intros Hp.
  unfold _perform_single_scrape, submit_search, extract_details,
    open_carrier_details, read_name, read_phone, read_email, close_modal.
  emits_by ltac:(apply Hp; reflexivity).
Qed.

Lemma scrape_number_emits driver wait website_url number :
  (forall c r, is_page_call c = true -> p (c, r) = true) ->
  emits p (scrape_number respond driver wait website_url number).
Proof.
  intros Hp. unfold scrape_number. apply emits_try_except.
  - apply emits_bind.
    + apply emits_call_with, single_scrape_emits, Hp.
    + intros [[em nm] ph]. emits_calls.
  - emits_calls.
Qed.

Lemma quit_driver_emits :
  (forall d r, p (driver_quit d, r) = true) ->
  emits p (quit_driver respond).
Proof.
  intros Hp. unfold quit_driver. apply emits_bind; [apply emits_get|].
  intros l. destruct (var_driver l); emits_by ltac:(apply Hp).
Qed.

Lemma run_batch_emits website_url numbers :
  (forall ev, is_browser_call ev = true -> p ev = true) ->
  emits p (run_batch respond website_url numbers).
Proof.
  intros Hp. unfold run_batch, start_and_scrape, fatal_handlers.
  apply emits_bind; [apply emits_assign|]. intros _.
  apply emits_try_finally.
  - apply emits_try_except.
    + apply emits_bind; [apply emits_logs_append|]. intros _.
      apply emits_bind; [apply emits_perform; intros; now apply Hp|].
      intros service.
      apply emits_bind; [apply emits_perform; intros; now apply Hp|].
      intros driver.
      apply emits_bind; [apply emits_assign|]. intros _.
      apply emits_bind; [apply emits_logs_append|]. intros _.
      apply emits_for_each. intros number. apply scrape_number_emits.
      intros c r Hc. apply Hp. destruct c; try discriminate; reflexivity.
    + emits_calls.
  - apply quit_driver_emits. intros d r. now apply Hp.
Qed.

Lemma read_numbers_emits filepath :
  (forall r, p (open_read filepath, r) = true) ->
  emits p (_read_numbers_from_file_api respond filepath).
Proof.
  intros Hp. unfold _read_numbers_from_file_api.
  apply emits_bind; [apply emits_assign|]. intros _.
  apply emits_try_except; [|emits_calls].
  apply emits_bind; [apply emits_perform; exact Hp|]. intros f.
  apply emits_bind.
  - apply emits_for_each. intros line. unfold read_line. emits_calls.
  - emits_calls.
Qed.

(** Lines 239-295 of [scrape_by_file]: everything but its [finally]. *)
Lemma upload_body_emits website_url file_path
    (m : M W batch_locals unit) :
  m = try_except
        (perform respond (save_upload file_path) ;;
         logs_append ("Uploaded file saved to " ++ file_path)%string ;;
         numbers_to_scrape <-
           call_with [] (_read_numbers_from_file_api respond file_path) ;;
         if is_nil numbers_to_scrape then
           raise (http_exception 400
                    "No valid numbers found in the uploaded file.")
         else
           run_batch respond website_url numbers_to_scrape)
        (fun e =>
           if isinstance_HTTPException e then raise e
           else
             logs_append ("Error during file processing: " ++ str e)%string ;;
             raise (http_exception 500
                      ("Error processing file: " ++ str e)%string)) ->
  (forall r, p (save_upload file_path, r) = true) ->
  (forall r, p (open_read file_path, r) = true) ->
  (forall ev, is_browser_call ev = true -> p ev = true) ->
  emits p m.
Proof.
  intros -> Hs Ho Hb.
  apply emits_try_except; [|emits_calls].
  apply emits_bind; [apply emits_perform; exact Hs|]. intros _.
  apply emits_bind; [apply emits_logs_append|]. intros _.
  apply emits_bind; [apply emits_call_with, read_numbers_emits, Ho|].
  intros numbers. apply emits_if; [apply emits_raise|].
  apply run_batch_emits, Hb.
Qed.

End Calls.

Section Cleanup.

Context {W : Type}.
Variable respond : W -> call -> W * reply.

(** X2.  On every way out of [scrape_by_file] the temporary file is looked
    for once, after every other call of the request, and it is removed
    exactly when it was found. *)
Theorem upload_cleanup_always_runs website_url filename
    (st st' : state W batch_locals) (r : exn + ScrapeResponse) :
  scrape_by_file respond website_url filename st = (st', r) ->
  exists tr rx rest,
    new_events st st'
    = tr ++ (os_path_exists (os_path_join TEMP_UPLOAD_DIR filename), rx)
         :: rest /\
    forallb before_cleanup tr = true /\
    removal_after (os_path_join TEMP_UPLOAD_DIR filename) rx rest.
Proof.
  unfold scrape_by_file. cbv zeta.
  set (file_path := os_path_join TEMP_UPLOAD_DIR filename).
  unfold bind at 1. unfold logs_new at 1.
  set (s0 := mkState (locals st) (world st) (trace st) []).
  unfold bind at 1. unfold try_finally.
  match goal with
  | |- context [try_except ?b ?h s0] =>
      destruct (try_except b h s0) as [s1 r1] eqn:E;
      pose proof (upload_body_emits respond before_cleanup website_url
                    file_path (try_except b h) eq_refl
                    (fun _ => eq_refl) (fun _ => eq_refl)) as Hb
  end.
  assert (Hbrowser : forall ev, is_browser_call ev = true ->
                                before_cleanup ev = true).
  { intros [[] rr]; simpl; auto; discriminate. }
  destruct (Hb Hbrowser _ _ _ E) as [tr [T F]]. clear Hb.
  unfold remove_upload, bind, perform.
  destruct (respond (world s1) (os_path_exists file_path))
    as [w2 [found | e]].
  - cbn [locals world trace logs].
    destruct (String.eqb found "True") eqn:Q.
    + cbn [locals world trace logs].
      destruct (respond w2 (os_remove file_path)) as [w3 ry].
      intros H. exists tr, (Returns found), [(os_remove file_path, ry)].
      split; [|split; [exact F|]].
      * assert (Ht : trace st'
                     = trace st ++ tr
                       ++ [(os_path_exists file_path, Returns found);
                           (os_remove file_path, ry)]).
        { destruct ry; destruct r1; unfold make_response, bind, get, ret,
            logs_append in H; inversion H; subst; cbn [trace];
            rewrite T; cbn [trace s0]; now rewrite <- !app_assoc. }
        exact (new_events_app st st' _ Ht).
      * unfold removal_after. rewrite Q. eauto.
    + intros H. exists tr, (Returns found), [].
      split; [|split; [exact F|]].
      * assert (Ht : trace st'
                     = trace st ++ tr
                       ++ [(os_path_exists file_path, Returns found)]).
        { destruct r1; unfold make_response, bind, get, ret in H;
            inversion H; subst; cbn [trace]; rewrite T; cbn [trace s0];
            now rewrite <- !app_assoc. }
        exact (new_events_app st st' _ Ht).
      * unfold removal_after. now rewrite Q.
  - intros H. exists tr, (Raises e), [].
    split; [|split; [exact F | reflexivity]].
    assert (Ht : trace st'
                 = trace st ++ tr ++ [(os_path_exists file_path, Raises e)]).
    { inversion H; subst; cbn [trace]; rewrite T; cbn [trace s0];
        now rewrite <- !app_assoc. }
    exact (new_events_app st st' _ Ht).
Qed.

End Cleanup.

Lemma upload_cleanup_always_runs_witness :
  exists tr rx rest,
    new_events (start_state empty_batch)
      (fst (scrape_by_file world_file_without_numbers DEFAULT_WEBSITE_URL
              "numbers.txt" (start_state empty_batch)))
    = tr ++ (os_path_exists "temp_uploads/numbers.txt", rx) :: rest /\
    removal_after "temp_uploads/numbers.txt" rx rest.
Proof.
  destruct (upload_cleanup_always_runs world_file_without_numbers
              DEFAULT_WEBSITE_URL "numbers.txt" (start_state empty_batch)
              _ _ (surjective_pairing _)) as [tr [rx [rest [E [_ R]]]]].
  exists tr, rx, rest. split; assumption.
Defined.

Section UploadPath.

Context {W : Type}.
Variable respond : W -> call -> W * reply.

Lemma remove_upload_emits (p : event -> bool) file_path :
  (forall r, p (os_path_exists file_path, r) = true) ->
  (forall r, p (os_remove file_path, r) = true) ->
  emits p (remove_upload respond file_path).
Proof.
  intros He Hr. unfold remove_upload.
  apply emits_bind; [apply emits_perform; exact He|]. intros found.
  apply emits_if; [|apply emits_ret].
  apply emits_bind; [apply emits_perform; exact Hr|]. intros _.
  apply emits_logs_append.
Qed.

Lemma remove_upload_done file_path (s : state W batch_locals) :
  upload_removed respond (world s) file_path ->
  exists s',
    remove_upload respond file_path s = (s', inr tt) /\
    locals s' = locals s.
Proof.
  unfold upload_removed, remove_upload, bind, perform.
  destruct (respond (world s) (os_path_exists file_path))
    as [w1 [found | e]]; [|contradiction].
  cbn [locals world trace logs].
  destruct (String.eqb found "True").
  - cbn [locals world trace logs].
    destruct (respond w1 (os_remove file_path)) as [w2 [v | e]];
      [|contradiction].
    intros _. eexists. split; reflexivity.
  - intros _. eexists. split; reflexivity.
Qed.

(** X3.  Every call [scrape_by_file] makes to the file system names one
    path, the join of the upload directory and the client's file name.
    For a file name that starts with a slash that path is the file name
    itself, outside the upload directory. *)
Theorem upload_path_is_joined_file_name website_url filename
    (st st' : state W batch_locals) (r : exn + ScrapeResponse) :
  scrape_by_file respond website_url filename st = (st', r) ->
  forallb (on_path (os_path_join TEMP_UPLOAD_DIR filename))
          (new_events st st') = true /\
  (startswith filename "/" = true ->
   os_path_join TEMP_UPLOAD_DIR filename = filename) /\
  (startswith filename "/" = false ->
   os_path_join TEMP_UPLOAD_DIR filename
   = ("temp_uploads/" ++ filename)%string).
Proof.
  intros H. split; [|split].
  - assert (He : emits (on_path (os_path_join TEMP_UPLOAD_DIR filename))
                   (scrape_by_file respond website_url filename)).
    { unfold scrape_by_file. cbv zeta.
      apply emits_bind; [apply emits_logs_new|]. intros _.
      apply emits_bind; [|intros; unfold make_response; emits_calls].
      apply emits_try_finally.
      - eapply upload_body_emits; [reflexivity | | | ].
        + intros; unfold on_path; simpl; apply String.eqb_refl.
        + intros; unfold on_path; simpl; apply String.eqb_refl.
        + intros [[] rr]; simpl; auto; discriminate.
      - apply remove_upload_emits;
          intros; unfold on_path; simpl; apply String.eqb_refl. }
    destruct (He _ _ _ H) as [tr [T F]].
    now rewrite (new_events_app st st' tr T).
  - unfold os_path_join. now intros ->.
  - unfold os_path_join. now intros ->.
Qed.

(** X4.  Unless removing the temporary file fails, whatever goes wrong inside
    [scrape_by_file] leaves it as an [HTTPException]: the handlers of
    lines 291-295 let nothing else through, not even an error raised
    while the session is closed. *)
Theorem upload_failures_are_http website_url filename
    (st st' : state W batch_locals) (e : exn) :
  (forall w, upload_removed respond w
               (os_path_join TEMP_UPLOAD_DIR filename)) ->
  scrape_by_file respond website_url filename st = (st', inl e) ->
  isinstance_HTTPException e = true.
Proof.
  intros Hc. unfold scrape_by_file. cbv zeta.
  set (file_path := os_path_join TEMP_UPLOAD_DIR filename) in *.
  unfold bind at 1. unfold logs_new at 1.
  set (s0 := mkState (locals st) (world st) (trace st) []).
  unfold bind at 1. unfold try_finally. unfold try_except at 1.
  match goal with
  | |- context [match ?b s0 with _ => _ end] =>
      destruct (b s0) as [sb [eb | []]]
  end.
  - destruct (isinstance_HTTPException eb) eqn:I.
    + unfold raise at 1.
      destruct (remove_upload_done file_path sb (Hc _)) as [s' [-> _]].
      intros H. inversion H; subst. exact I.
    + unfold bind at 1. unfold logs_append at 1. unfold raise at 1.
      match goal with
      | |- context [remove_upload respond file_path ?s] =>
          destruct (remove_upload_done file_path s (Hc _)) as [s' [-> _]]
      end.
      intros H. inversion H; subst. reflexivity.
  - destruct (remove_upload_done file_path sb (Hc _)) as [s' [-> _]].
    unfold make_response, bind, get, ret. discriminate.
Qed.

End UploadPath.

Lemma upload_path_is_joined_file_name_witness :
  forallb (on_path "/etc/cron.d/numbers")
    (new_events (start_state empty_batch)
       (fst (scrape_by_file world_file_without_numbers DEFAULT_WEBSITE_URL
               "/etc/cron.d/numbers" (start_state empty_batch)))) = true.
Proof.
  exact (proj1 (upload_path_is_joined_file_name world_file_without_numbers
                  DEFAULT_WEBSITE_URL "/etc/cron.d/numbers"
                  (start_state empty_batch) _ _ (surjective_pairing _))).
Defined.

Lemma upload_failures_are_http_witness :
  snd (scrape_by_file world_upload_quit_oserror DEFAULT_WEBSITE_URL
         "numbers.txt" (start_state empty_batch))
  = inl (http_exception 500
           "Error processing file: [Errno 3] No such process") /\
  isinstance_HTTPException
    (http_exception 500 "Error processing file: [Errno 3] No such process")
  = true.
Proof.
  assert (E : scrape_by_file world_upload_quit_oserror DEFAULT_WEBSITE_URL
                "numbers.txt" (start_state empty_batch)
              = (fst (scrape_by_file world_upload_quit_oserror
                        DEFAULT_WEBSITE_URL "numbers.txt"
                        (start_state empty_batch)),
                 inl (http_exception 500
                        "Error processing file: [Errno 3] No such process")))
    by (vm_compute; reflexivity).
  split.
  - rewrite E. reflexivity.
  - apply (upload_failures_are_http world_upload_quit_oserror
             DEFAULT_WEBSITE_URL "numbers.txt" (start_state empty_batch)
             _ _ (fun w => I) E).
Defined.

(** ** The file endpoint from upload to response *)

Section Upload.

Context {W : Type}.
Variable respond : W -> call -> W * reply.

Lemma read_numbers_fails filepath (st : state W (list string)) w' e :
  respond (world st) (open_read filepath) = (w', Raises e) ->
  exists lg,
    _read_numbers_from_file_api respond filepath st
    = (mkState [] w' (trace st ++ [(open_read filepath, Raises e)]) lg,
       inl (read_failure filepath e)).
Proof.
  intros H.
  unfold _read_numbers_from_file_api, try_except, bind, assign, perform.
  simpl. rewrite H. unfold read_failure.
  destruct (isinstance_FileNotFoundError e);
    unfold logs_append, raise; simpl; eexists; reflexivity.
Qed.

Lemma read_failure_is_http filepath e :
  isinstance_HTTPException (read_failure filepath e) = true.
Proof.
  unfold read_failure. now destruct (isinstance_FileNotFoundError e).
Qed.

Lemma upload_body_read_failure website_url file_path
    (s0 : state W batch_locals) w1 saved w2 e :
  respond (world s0) (save_upload file_path) = (w1, Returns saved) ->
  respond w1 (open_read file_path) = (w2, Raises e) ->
  exists lg,
    upload_body respond website_url file_path s0
    = (mkState (locals s0) w2
         (trace s0 ++ [(save_upload file_path, Returns saved);
                       (open_read file_path, Raises e)]) lg,
       inl (read_failure file_path e)).
Proof.
  intros Hs Ho.
  unfold upload_body, try_except. unfold bind at 1. unfold perform at 1.
  rewrite Hs. unfold bind at 1. unfold logs_append at 1.
  unfold bind at 1. unfold call_with at 1.
  cbn [enter locals world trace logs].
  match goal with
  | |- context [_read_numbers_from_file_api respond file_path ?s] =>
      destruct (read_numbers_fails file_path s w2 e Ho) as [lg ->]
  end.
  cbn [leave enter locals world trace logs].
  rewrite read_failure_is_http. unfold raise. rewrite <- app_assoc.
  eexists. reflexivity.
Qed.

(** X5.  When the saved upload cannot be read back, [scrape_by_file]
    fails without a call to the browser and still looks for the
    temporary file.  If that file is removed without error, the
    exception is the parser's [HTTPException], which passes the handlers
    of the endpoint unchanged: status 400 if the file is missing, status
    500 for any other error. *)
Theorem upload_read_failure_keeps_parser_status website_url filename
    (st : state W batch_locals) w1 saved w2 (e : exn) :
  respond (world st) (save_upload (os_path_join TEMP_UPLOAD_DIR filename))
  = (w1, Returns saved) ->
  respond w1 (open_read (os_path_join TEMP_UPLOAD_DIR filename))
  = (w2, Raises e) ->
  exists st' e',
    scrape_by_file respond website_url filename st = (st', inl e') /\
    forallb outside_browser (new_events st st') = true /\
    In (os_path_exists (os_path_join TEMP_UPLOAD_DIR filename))
       (map fst (new_events st st')) /\
    (upload_removed respond w2 (os_path_join TEMP_UPLOAD_DIR filename) ->
     e' = read_failure (os_path_join TEMP_UPLOAD_DIR filename) e).
Proof.
  intros Hs Ho.
  destruct (upload_body_read_failure website_url
              (os_path_join TEMP_UPLOAD_DIR filename)
              (mkState (locals st) (world st) (trace st) [])
              w1 saved w2 e Hs Ho) as [lg B].
  destruct (upload_fails_after_body respond website_url filename st _ _ B)
    as [st' [e' [rx [rest [E [T [F R]]]]]]].
  exists st', e'. split; [exact E|].
  cbn [trace world] in T, R.
  rewrite (new_events_app st st' _
             (eq_trans T (eq_sym (app_assoc _ _ _)))).
  split; [|split; [|exact R]].
  - simpl. exact (cleanup_is_outside_browser rest F).
  - simpl. auto.
Qed.

(** X6.  A file that is saved and read and holds at least one identifier is
    scraped as a batch of exactly the parsed identifiers: the response
    has one record for each, in the order of the file, and none for a
    blank or malformed line. *)
Theorem upload_scrapes_parsed_identifiers website_url filename
    (st : state W batch_locals) w1 saved w2 text w3 driver :
  respond (world st) (save_upload (os_path_join TEMP_UPLOAD_DIR filename))
  = (w1, Returns saved) ->
  respond w1 (open_read (os_path_join TEMP_UPLOAD_DIR filename))
  = (w2, Returns text) ->
  identifiers_of (file_lines text) <> [] ->
  open_session respond w2 = (w3, Returns driver) ->
  (forall w e, snd (respond w (driver_quit driver)) = Raises e ->
               isinstance_WebDriverException e = true) ->
  (forall w, upload_removed respond w
               (os_path_join TEMP_UPLOAD_DIR filename)) ->
  exists st' response,
    scrape_by_file respond website_url filename st = (st', inr response) /\
    map number_searched (results response)
    = identifiers_of (file_lines text) /\
    total_processed response
    = Z.of_nat (List.length (identifiers_of (file_lines text))).
Proof.
  set (file_path := os_path_join TEMP_UPLOAD_DIR filename).
  intros Hs Ho Hn Hopen Hq Hc.
  unfold scrape_by_file. cbv zeta. fold file_path.
  unfold bind at 1. unfold logs_new at 1.
  unfold bind at 1. unfold try_finally, try_except.
  unfold bind at 1. unfold perform at 1.
  cbn [locals world trace logs]. rewrite Hs.
  unfold bind at 1. unfold logs_append at 1.
  unfold bind at 1. unfold call_with at 1.
  cbn [enter locals world trace logs].
  rewrite (read_numbers_run respond file_path text _ w2) by exact Ho.
  cbn [leave enter locals world trace logs].
  destruct (identifiers_of (file_lines text)) as [|n ns] eqn:I;
    [contradiction|].
  cbn [is_nil].
  match goal with
  | |- context [run_batch respond website_url (n :: ns) ?s] =>
      destruct (run_batch_opened respond website_url (n :: ns) s w3 driver
                  Hopen)
        as [service [tr [wl [wq [rq [final [R [E [_ [_ [Hr Hp]]]]]]]]]]]
  end.
  assert (Hok : quit_outcome rq = inr tt).
  { destruct rq as [v | e]; [reflexivity|]. simpl.
    rewrite (Hq wl e); [reflexivity|]. now rewrite R. }
  rewrite Hok in E. rewrite E.
  destruct (remove_upload_done respond file_path final (Hc _))
    as [s' [-> Hl]].
  unfold make_response, bind, get, ret. rewrite Hl.
  eexists. eexists. split; [reflexivity|]. simpl. split; assumption.
Qed.

End Upload.

Lemma upload_read_failure_keeps_parser_status_witness :
  (exists st',
      scrape_by_file world_upload_vanished DEFAULT_WEBSITE_URL "numbers.txt"
        (start_state empty_batch)
      = (st', inl (http_exception 400
                     "Numbers file not found at 'temp_uploads/numbers.txt'."))) /\
  (exists st',
      scrape_by_file world_upload_unreadable DEFAULT_WEBSITE_URL "numbers.txt"
        (start_state empty_batch)
      = (st', inl (http_exception 500
                     "Error reading numbers file: 'utf-8' codec can't decode byte 0xff"))).
Proof.
  split.
  - destruct (upload_read_failure_keeps_parser_status world_upload_vanished
                DEFAULT_WEBSITE_URL "numbers.txt" (start_state empty_batch)
                tt "handle"%string tt
                (an_exn FileNotFoundError
                   "[Errno 2] No such file or directory")
                eq_refl eq_refl) as [st' [e' [E [_ [_ R]]]]].
    exists st'. rewrite (R I) in E. exact E.
  - destruct (upload_read_failure_keeps_parser_status world_upload_unreadable
                DEFAULT_WEBSITE_URL "numbers.txt" (start_state empty_batch)
                tt "handle"%string tt
                (an_exn Exception "'utf-8' codec can't decode byte 0xff")
                eq_refl eq_refl) as [st' [e' [E [_ [_ R]]]]].
    exists st'. rewrite (R I) in E. exact E.
Defined.

Lemma upload_scrapes_parsed_identifiers_witness :
  exists st' response,
    scrape_by_file world_file_mixed DEFAULT_WEBSITE_URL "numbers.txt"
      (start_state empty_batch) = (st', inr response) /\
    map number_searched (results response)
    = ["8012345678"; "12345"; "12345"]%string /\
    total_processed response = 3.
Proof.
  destruct (upload_scrapes_parsed_identifiers world_file_mixed
              DEFAULT_WEBSITE_URL "numbers.txt" (start_state empty_batch)
              tt "handle"%string tt
              ("2348012345678" ++ newline ++ " 12345 " ++ newline
               ++ newline ++ "12a45" ++ newline ++ "12345")%string
              tt "handle"%string)
    as [st' [response [E [R P]]]].
  - reflexivity.
  - reflexivity.
  - vm_compute. discriminate.
  - reflexivity.
  - intros w e H. discriminate H.
  - intros w. exact I.
  - exists st', response. split; [exact E|]. split; [exact R | exact P].
Defined.

(** ** The loop inside the endpoint *)

Section LoopInside.

Context {W : Type}.
Variable respond : W -> call -> W * reply.

(** When the session starts, [run_batch] is the loop over the numbers
    between the two calls that start the session and the call that
    closes it. *)
Lemma run_batch_opened_loop website_url numbers
    (st : state W batch_locals) w1 driver :
  open_session respond (world st) = (w1, Returns driver) ->
  exists service s0 s1 rq final,
    trace s0 = trace st
               ++ [(GeckoDriverManager_install, Returns service);
                   (webdriver_Firefox service ["--headless"%string],
                    Returns driver)] /\
    locals s0 = set_driver (Some driver) empty_batch /\
    for_each numbers
      (scrape_number respond driver
         (mkWebDriverWait driver SELENIUM_WAIT_TIMEOUT) website_url) s0
    = (s1, inr tt) /\
    run_batch respond website_url numbers st = (final, quit_outcome rq) /\
    trace final = trace s1 ++ [(driver_quit driver, rq)] /\
    locals final = locals s1.
Proof.
  unfold open_session. intros H.
  destruct (respond (world st) GeckoDriverManager_install)
    as [wa [service | e1]] eqn:E1; [|discriminate].
  set (s0 := mkState (set_driver (Some driver) empty_batch) w1
               (trace st
                ++ [(GeckoDriverManager_install, Returns service);
                    (webdriver_Firefox service ["--headless"%string],
                     Returns driver)])
               (logs st ++ ["Initializing Firefox WebDriver..."%string;
                            "WebDriver initialized."%string])).
  destruct (scrape_loop_total respond driver
              (mkWebDriverWait driver SELENIUM_WAIT_TIMEOUT)
              website_url numbers s0) as [s1 [E [_ [_ Hd]]]].
  destruct (respond (world s1) (driver_quit driver)) as [wq rq] eqn:Q.
  exists service, s0, s1, rq.
  assert (Es : start_and_scrape respond website_url numbers
                 (mkState empty_batch (world st) (trace st) (logs st))
               = (s1, inr tt)).
  { unfold start_and_scrape, bind, logs_append, perform, assign. simpl.
    rewrite E1. simpl. rewrite H. simpl.
    rewrite <- !app_assoc. simpl. exact E. }
  unfold run_batch, bind, assign, try_finally, try_except. simpl.
  fold empty_batch. rewrite Es.
  unfold quit_driver, bind, get, try_except, perform.
  rewrite Hd. subst s0. cbn [locals set_driver var_driver]. rewrite Q.
  destruct rq as [v | e]; simpl.
  - eexists. split; [reflexivity|]. split; [reflexivity|].
    split; [exact E|]. repeat split; reflexivity.
  - destruct (isinstance_WebDriverException e); simpl;
      (eexists; split; [reflexivity|]; split; [reflexivity|];
       split; [exact E|]; repeat split; reflexivity).
Qed.

(** A response of [scrape_by_numbers] is read off the variables the
    loop leaves. *)
Lemma scrape_by_numbers_response_inv request
    (st st' : state W batch_locals) response :
  scrape_by_numbers respond request st = (st', inr response) ->
  exists service driver s0 s1 rq,
    trace s0 = trace st
               ++ [(GeckoDriverManager_install, Returns service);
                   (webdriver_Firefox service ["--headless"%string],
                    Returns driver)] /\
    locals s0 = set_driver (Some driver) empty_batch /\
    for_each (numbers request)
      (scrape_number respond driver
         (mkWebDriverWait driver SELENIUM_WAIT_TIMEOUT)
         (website_url request)) s0
    = (s1, inr tt) /\
    trace st' = trace s1 ++ [(driver_quit driver, rq)] /\
    results response = var_results (locals s1) /\
    errors response = var_errors (locals s1) /\
    total_processed response = var_processed_count (locals s1) /\
    status response
    = if is_nil (var_errors (locals s1))
      then "success"%string else "completed_with_errors"%string.
Proof.
  intros H.
  destruct (numbers request) as [|n ns] eqn:N.
  { unfold scrape_by_numbers in H. rewrite N in H. discriminate. }
  rewrite scrape_by_numbers_nonempty in H by (rewrite N; discriminate).
  rewrite N in H. unfold bind at 1 in H. unfold logs_new at 1 in H.
  set (z := mkState (locals st) (world st) (trace st) []) in H.
  destruct (open_session respond (world z)) as [w1 [driver | e]] eqn:O.
  - destruct (run_batch_opened_loop (website_url request) (n :: ns)
                z w1 driver O)
      as [service [s0 [s1 [rq [final [T0 [L0 [E [R [T1 L1]]]]]]]]]].
    exists service, driver, s0, s1, rq.
    unfold bind in H. rewrite R in H.
    destruct (quit_outcome rq) as [e | []]; [discriminate|].
    unfold make_response, get, ret in H. inversion H; subst.
    simpl. rewrite L1. repeat split; auto.
  - destruct (run_batch_failed respond (website_url request) (n :: ns)
                z w1 e O) as [tr [detail [lg [E _]]]].
    rewrite (bind_inl _ _ _ _ _ E) in H. discriminate.
Qed.

End LoopInside.

(** ** Error entries of a response *)

Section ErrorEntries.

Context {W : Type}.
Variable respond : W -> call -> W * reply.

Lemma traced_ret {L A} (a : A) : traced (@ret W L A a).
Proof.
  intros st st' r H. inversion H; subst. exists [].
  split; [now rewrite app_nil_r | discriminate].
Qed.

Lemma traced_get {L} : traced (@get W L).
Proof.
  intros st st' r H. inversion H; subst. exists [].
  split; [now rewrite app_nil_r | discriminate].
Qed.

Lemma traced_assign {L} f : traced (@assign W L f).
Proof.
  intros st st' r H. inversion H; subst. exists [].
  split; [simpl; now rewrite app_nil_r | discriminate].
Qed.

Lemma traced_logs_append {L} s : traced (@logs_append W L s).
Proof.
  intros st st' r H. inversion H; subst. exists [].
  split; [simpl; now rewrite app_nil_r | discriminate].
Qed.

Lemma traced_perform {L} c : traced (@perform W respond L c).
Proof.
  intros st st' r H. unfold perform in H.
  destruct (respond (world st) c) as [w' [v | e0]]; inversion H; subst;
    eexists; (split; [reflexivity|]); intros e He.
  - discriminate.
  - inversion He; subst. exists c. now left.
Qed.

Lemma traced_bind {L A B} (m : M W L A) (k : A -> M W L B) :
  traced m -> (forall a, traced (k a)) -> traced (bind m k).
Proof.
  intros Hm Hk st st' r H. unfold bind in H.
  destruct (m st) as [s1 [e0 | a]] eqn:E.
  - inversion H; subst. destruct (Hm _ _ _ E) as [t1 [T1 F1]].
    exists t1. split; [exact T1|]. intros e He. inversion He; subst.
    exact (F1 e eq_refl).
  - destruct (Hm _ _ _ E) as [t1 [T1 _]].
    destruct (Hk a _ _ _ H) as [t2 [T2 F2]].
    exists (t1 ++ t2). split; [now rewrite T2, T1, app_assoc|].
    intros e He. destruct (F2 e He) as [c Hc]. exists c.
    apply in_or_app. now right.
Qed.

Lemma traced_try_except {L A} (m : M W L A) (h : exn -> M W L A) :
  traced m ->
  (forall e0, emits no_event (h e0)) ->
  (forall e0 st st' e, h e0 st = (st', inl e) -> e = e0) ->
  traced (try_except m h).
Proof.
  intros Hm Hs Hr st st' r H. unfold try_except in H.
  destruct (m st) as [s1 [e0 | a]] eqn:E.
  - destruct (Hm _ _ _ E) as [t1 [T1 F1]].
    destruct (Hs e0 _ _ _ H) as [t2 [T2 F2]].
    assert (t2 = []) by (destruct t2; [reflexivity | discriminate]).
    subst t2. rewrite app_nil_r in T2. exists t1.
    split; [now rewrite T2|].
    intros e He. subst r. rewrite (Hr e0 _ _ _ H). exact (F1 e0 eq_refl).
  - inversion H; subst. destruct (Hm _ _ _ E) as [t1 [T1 _]].
    exists t1. split; [exact T1 | discriminate].
Qed.

Lemma single_scrape_traced driver wait website_url number :
  traced (_perform_single_scrape respond driver wait website_url number).
Proof.
  unfold _perform_single_scrape, submit_search, extract_details,
    open_carrier_details, read_name, read_phone, read_email, close_modal.
  repeat (intros;
          first [ apply traced_bind | apply traced_try_except
                | apply traced_perform | apply traced_ret
                | apply traced_assign | apply traced_logs_append
                | apply traced_get ]);
    try solve [emits_calls];
    try solve [ intros e0 st st' e H;
                repeat match type of H with
                       | context [if ?b then _ else _] => destruct b
                       end;
                unfold bind, logs_append, raise in H; simpl in H;
                inversion H; subst; reflexivity ].
Qed.

Lemma scrape_number_justified base driver wait website_url number
    (st st' : state W batch_locals) :
  justified_since base st ->
  scrape_number respond driver wait website_url number st = (st', inr tt) ->
  justified_since base st'.
Proof.
  intros [tr0 [T0 J]] H.
  destruct (_perform_single_scrape respond driver wait website_url number
              (enter fresh st)) as [s1 [e | [[em nm] ph]]] eqn:E.
  - destruct (single_scrape_traced _ _ _ _ _ _ _ E) as [t [T F]].
    destruct (F e eq_refl) as [c Hc]. cbn [enter trace] in T.
    rewrite (scrape_number_raises _ _ _ _ _ _ _ _ E) in H.
    inversion H; subst. clear H. exists (tr0 ++ t).
    split; [cbn [trace]; now rewrite T, T0, app_assoc|].
    intros entry Hin. simpl in Hin.
    apply in_app_or in Hin as [Hin | [<- | []]].
    + destruct (J entry Hin) as [n [e' [c' [He [Hw [Ht Hd]]]]]].
      exists n, e', c'. repeat split; auto.
      * apply in_or_app. now left.
      * simpl. apply in_or_app. now left.
    + exists number, e, c. repeat split.
      * exact (single_scrape_raises_only_webdriver _ _ _ _ _ _ _ _ E).
      * apply in_or_app. now right.
      * simpl. apply in_or_app. right. now left.
  - destruct (single_scrape_traced _ _ _ _ _ _ _ E) as [t [T _]].
    cbn [enter trace] in T.
    rewrite (scrape_number_returns _ _ _ _ _ _ _ _ _ _ E) in H.
    inversion H; subst. clear H. exists (tr0 ++ t).
    split; [cbn [trace]; now rewrite T, T0, app_assoc|].
    intros entry Hin. simpl in Hin.
    destruct (J entry Hin) as [n [e' [c' [He [Hw [Ht Hd]]]]]].
    exists n, e', c'. repeat split; auto.
    + apply in_or_app. now left.
    + simpl. apply in_or_app. now left.
Qed.

Lemma scrape_loop_justified base driver wait website_url
    (numbers : list string) :
  forall st st' : state W batch_locals,
    justified_since base st ->
    for_each numbers (scrape_number respond driver wait website_url) st
    = (st', inr tt) ->
    justified_since base st'.
Proof.
  induction numbers as [|number rest IH]; intros st st' J H.
  - inversion H; subst. exact J.
  - simpl in H.
    destruct (scrape_number_total respond driver wait website_url number st)
      as [s1 [r [E _]]].
    rewrite (bind_inr _ _ _ _ _ E) in H.
    exact (IH s1 st' (scrape_number_justified _ _ _ _ _ _ _ J E) H).
Qed.

(** X7.  In every response of [scrape_by_numbers], each entry of the
    error list is the message "Failed to process number n: e" of a
    [WebDriverException] [e] that a call of this run raised, for a
    number [n] of the request whose record in the response is the
    all-default one; there are no more entries than numbers, and the
    status is "success" exactly when there is none. *)
Theorem error_entries_name_defaulted_numbers request
    (st st' : state W batch_locals) response :
  scrape_by_numbers respond request st = (st', inr response) ->
  (forall entry,
      In entry (errors response) ->
      exists number e c,
        entry = error_entry number e /\
        isinstance_WebDriverException e = true /\
        In (c, Raises e) (new_events st st') /\
        In number (numbers request) /\
        In (default_result number) (results response)) /\
  (List.length (errors response) <= List.length (numbers request))%nat /\
  (status response = "success"%string <-> errors response = []).
Proof.
  intros H.
  destruct (scrape_by_numbers_response_inv respond request st st' response H)
    as [service [driver [s0 [s1 [rq [T0 [L0 [E [T1 [R [X [_ S]]]]]]]]]]]].
  destruct (scrape_loop_grows respond driver
              (mkWebDriverWait driver SELENIUM_WAIT_TIMEOUT)
              (website_url request) (numbers request) s0)
    as [s1' [records [later [E' [Hr [Hm [He Hl]]]]]]].
  rewrite E in E'. inversion E'; subst s1'. clear E'.
  rewrite L0 in Hr, He. simpl in Hr, He.
  assert (J : justified_since (trace st) s1).
  { refine (scrape_loop_justified (trace st) _ _ _ _ s0 s1 _ E).
    eexists. split; [exact T0|]. rewrite L0. intros entry []. }
  destruct J as [tr [T J]].
  assert (N : new_events st st' = tr ++ [(driver_quit driver, rq)]).
  { apply new_events_app. rewrite T1, T, <- app_assoc. reflexivity. }
  split; [|split].
  - intros entry Hin. rewrite X in Hin.
    destruct (J entry Hin) as [n [e [c [He' [Hw [Ht Hd]]]]]].
    exists n, e, c. repeat split; auto.
    + rewrite N. apply in_or_app. now left.
    + rewrite <- Hm. rewrite Hr in Hd.
      change n with (number_searched (default_result n)).
      now apply in_map.
    + now rewrite R.
  - rewrite X, He. exact Hl.
  - rewrite S, X. destruct (var_errors (locals s1)); simpl.
    + split; reflexivity.
    + split; discriminate.
Qed.

(** X8.  An exception that leaves [scrape_by_numbers] is the status 400 of an
    empty list, a status 500 of the session start, or an exception that
    is not a [WebDriverException] and was raised while the session was
    closed; no [WebDriverException] ever leaves the endpoint. *)
Theorem scrape_by_numbers_failures request
    (st st' : state W batch_locals) (e : exn) :
  scrape_by_numbers respond request st = (st', inl e) ->
  isinstance_WebDriverException e = false /\
  ((numbers request = [] /\
    e = http_exception 400 "No numbers provided for scraping.") \/
   (numbers request <> [] /\
    (exists detail, e = http_exception 500 detail) /\
    count_events is_opened (new_events st st') = 0%nat) \/
   (exists driver,
       List.last (new_events st st') (GeckoDriverManager_install, Returns NA)
       = (driver_quit driver, Raises e))).
Proof.
  intros H.
  destruct (numbers request) as [|n ns] eqn:N.
  { unfold scrape_by_numbers in H. rewrite N in H. inversion H; subst.
    split; [reflexivity|]. left. auto. }
  rewrite scrape_by_numbers_nonempty in H by (rewrite N; discriminate).
  rewrite N in H. unfold bind at 1 in H. unfold logs_new at 1 in H.
  set (z := mkState (locals st) (world st) (trace st) []) in H.
  destruct (open_session respond (world z)) as [w1 [driver | e0]] eqn:O.
  - destruct (run_batch_opened respond (website_url request) (n :: ns)
                z w1 driver O)
      as [service [tr [wl [wq [rq [final [_ [E [T _]]]]]]]]].
    unfold bind in H. rewrite E in H.
    destruct rq as [v | eq]; simpl in H.
    { unfold make_response, bind, get, ret in H. discriminate. }
    destruct (isinstance_WebDriverException eq) eqn:I.
    { unfold make_response, bind, get, ret in H. discriminate. }
    inversion H; subst. split; [exact I|]. right. right. exists driver.
    rewrite (new_events_app st st' _ T).
    rewrite app_assoc. apply last_last.
  - destruct (run_batch_failed respond (website_url request) (n :: ns)
                z w1 e0 O) as [tr [detail [lg [E F]]]].
    rewrite (bind_inl _ _ _ _ _ E) in H. inversion H; subst.
    split; [reflexivity|]. right. left.
    split; [discriminate|]. split; [eauto|].
    rewrite (new_events_app st _ tr) by reflexivity.
    exact (count_events_none is_opened failed_start tr
             failed_start_not_opened F).
Qed.

End ErrorEntries.

Lemma error_entries_name_defaulted_numbers_witness :
  exists st' response,
    scrape_by_numbers world_crash_on_666
      (mkScrapeRequest DEFAULT_WEBSITE_URL ["12345"; "666"]%string)
      (start_state empty_batch) = (st', inr response) /\
    errors response
    = ["Failed to process number 666: Failed to decode response from marionette"%string] /\
    (exists number e c,
        "Failed to process number 666: Failed to decode response from marionette"%string
        = error_entry number e /\
        isinstance_WebDriverException e = true /\
        In (c, Raises e) (new_events (start_state empty_batch) st')) /\
    (status response = "success"%string <-> errors response = []).
Proof.
  assert (E : scrape_by_numbers world_crash_on_666
                (mkScrapeRequest DEFAULT_WEBSITE_URL ["12345"; "666"]%string)
                (start_state empty_batch)
              = (fst (scrape_by_numbers world_crash_on_666
                        (mkScrapeRequest DEFAULT_WEBSITE_URL
                           ["12345"; "666"]%string)
                        (start_state empty_batch)),
                 inr (mkScrapeResponse "completed_with_errors"
                        "Scraping completed with some errors. Check 'errors' list."
                        [mkScrapeResult "12345" "x" "x" "x";
                         default_result "666"] 2
                        ["Failed to process number 666: Failed to decode response from marionette"])%string))
    by (vm_compute; reflexivity).
  destruct (error_entries_name_defaulted_numbers world_crash_on_666
              _ _ _ _ E) as [H1 [_ H3]].
  eexists. eexists. split; [exact E|]. split; [reflexivity|].
  split; [|exact H3].
  destruct (H1 _ (or_introl eq_refl)) as [n [e [c [He [Hw [Ht _]]]]]].
  exists n, e, c. split; [exact He|]. split; [exact Hw | exact Ht].
Defined.

Lemma scrape_by_numbers_failures_witness :
  isinstance_WebDriverException
    (an_exn Exception "[Errno 3] No such process") = false.
Proof.
  exact (proj1 (scrape_by_numbers_failures world_quit_oserror
                  (mkScrapeRequest DEFAULT_WEBSITE_URL ["12345"]%string)
                  (start_state empty_batch)
                  (fst (scrape_by_numbers world_quit_oserror
                          (mkScrapeRequest DEFAULT_WEBSITE_URL
                             ["12345"]%string)
                          (start_state empty_batch)))
                  (an_exn Exception "[Errno 3] No such process")
                  ltac:(vm_compute; reflexivity))).
Defined.

(** ** The session a batch works through *)

Section SessionUse.

Context {W : Type}.
Variable respond : W -> call -> W * reply.

Lemma scrape_number_uses_session driver website_url number :
  emits (uses_session driver)
        (scrape_number respond driver
           (mkWebDriverWait driver SELENIUM_WAIT_TIMEOUT) website_url number).
Proof.
  unfold scrape_number. apply emits_try_except; [|emits_calls].
  apply emits_bind; [|intros [[em nm] ph]; emits_calls].
  apply emits_call_with.
  unfold _perform_single_scrape, submit_search, extract_details,
    open_carrier_details, read_name, read_phone, read_email, close_modal.
  emits_by ltac:(unfold uses_session; simpl;
                 rewrite ?String.eqb_refl; reflexivity).
Qed.

(** X9.  A batch whose session starts asks for a headless browser, makes
    every page call through the driver it was given, bounds every wait
    by the configured timeout of 20, and ends by closing that same
    driver, whatever happened to the numbers on the way. *)
Theorem batch_works_through_its_session request
    (st : state W batch_locals) w1 driver :
  numbers request <> [] ->
  open_session respond (world st) = (w1, Returns driver) ->
  exists service tr rq,
    new_events st (fst (scrape_by_numbers respond request st))
    = (GeckoDriverManager_install, Returns service)
      :: (webdriver_Firefox service ["--headless"%string], Returns driver)
      :: tr ++ [(driver_quit driver, rq)] /\
    forallb (uses_session driver) tr = true.
Proof.
  intros N O.
  rewrite scrape_by_numbers_nonempty by exact N.
  unfold bind at 1. unfold logs_new at 1.
  set (z := mkState (locals st) (world st) (trace st) []).
  destruct (run_batch_opened_loop respond (website_url request)
              (numbers request) z w1 driver O)
    as [service [s0 [s1 [rq [final [T0 [_ [E [R [T1 _]]]]]]]]]].
  assert (Hl : emits (uses_session driver)
                 (for_each (numbers request)
                    (scrape_number respond driver
                       (mkWebDriverWait driver SELENIUM_WAIT_TIMEOUT)
                       (website_url request))))
    by (apply emits_for_each; intros; apply scrape_number_uses_session).
  destruct (Hl _ _ _ E) as [tr [T F]].
  exists service, tr, rq. split; [|exact F].
  apply new_events_app.
  assert (Hf : fst ((run_batch respond (website_url request)
                       (numbers request) ;; make_response) z) = final).
  { unfold bind. rewrite R. destruct (quit_outcome rq) as [e | []];
      reflexivity. }
  rewrite Hf, T1, T, T0. subst z. cbn [trace].
  rewrite <- !app_assoc. reflexivity.
Qed.

End SessionUse.

Lemma batch_works_through_its_session_witness :
  exists service tr rq,
    new_events (start_state empty_batch)
      (fst (scrape_by_numbers world_crash_on_666
              (mkScrapeRequest DEFAULT_WEBSITE_URL ["12345"; "666"]%string)
              (start_state empty_batch)))
    = (GeckoDriverManager_install, Returns service)
      :: (webdriver_Firefox service ["--headless"%string], Returns "handle"%string)
      :: tr ++ [(driver_quit "handle", rq)] /\
    forallb (uses_session "handle") tr = true.
Proof.
  apply (batch_works_through_its_session world_crash_on_666
           (mkScrapeRequest DEFAULT_WEBSITE_URL ["12345"; "666"]%string)
           (start_state empty_batch) tt "handle"%string).
  - discriminate.
  - reflexivity.
Defined.

(** ** Navigations *)

Section Navigation.

Context {W L : Type}.
Variable respond : W -> call -> W * reply.






End Navigation.

Section NavigationCount.

Context {W : Type}.
Variable respond : W -> call -> W * reply.







End NavigationCount.


(** ** Trimmed fields *)

Lemma lstrip_idempotent (s : string) : lstrip (lstrip s) = lstrip s.
Proof.
  induction s as [|c r IH]; simpl; [reflexivity|].
  destruct (isspace c) eqn:S; [exact IH|]. simpl. now rewrite S.
Qed.

Lemma rstrip_idempotent (s : string) : rstrip (rstrip s) = rstrip s.
Proof.
  induction s as [|c r IH]; simpl; [reflexivity|].
  destruct (isspace c && is_empty (rstrip r)) eqn:C; [reflexivity|].
  simpl. now rewrite IH, C.
Qed.

Lemma rstrip_lstrip (s : string) :
  rstrip s = s -> rstrip (lstrip s) = lstrip s.
Proof.
  induction s as [|c r IH]; intros H; [reflexivity|].
  cbn [lstrip]. destruct (isspace c) eqn:S; [|exact H].
  apply IH. cbn [rstrip] in H. rewrite S in H. simpl in H.
  destruct (is_empty (rstrip r)); [discriminate|]. now injection H.
Qed.

Lemma strip_idempotent (s : string) : trimmed (strip s).
Proof.
  unfold trimmed, strip.
  rewrite (rstrip_lstrip (rstrip s) (rstrip_idempotent s)).
  apply lstrip_idempotent.
Qed.

Section Preserved.

Context {W L : Type}.
Variable respond : W -> call -> W * reply.
Variable P : L -> Prop.

Lemma preserves_keeps {A} (m : M W L A) : keeps_locals m -> preserves P m.
Proof. intros Hm st st' r HP H. now rewrite (Hm _ _ _ H). Qed.

Lemma preserves_assign f : (forall l, P l -> P (f l)) -> preserves P (@assign W L f).
Proof. intros Hf st st' r HP H. inversion H; subst. simpl. auto. Qed.

Lemma preserves_get : preserves P (@get W L).
Proof. intros st st' r HP H. now inversion H; subst. Qed.

Lemma preserves_bind {A B} (m : M W L A) (k : A -> M W L B) :
  preserves P m -> (forall a, preserves P (k a)) -> preserves P (bind m k).
Proof.
  intros Hm Hk st st' r HP H. unfold bind in H.
  destruct (m st) as [s1 [e | a]] eqn:E.
  - inversion H; subst. eauto.
  - exact (Hk a _ _ _ (Hm _ _ _ HP E) H).
Qed.

Lemma preserves_try_except {A} (m : M W L A) (h : exn -> M W L A) :
  preserves P m -> (forall e, preserves P (h e)) ->
  preserves P (try_except m h).
Proof.
  intros Hm Hh st st' r HP H. unfold try_except in H.
  destruct (m st) as [s1 [e | a]] eqn:E.
  - exact (Hh e _ _ _ (Hm _ _ _ HP E) H).
  - inversion H; subst. eauto.
Qed.

Lemma preserves_if {A} (b : bool) (m1 m2 : M W L A) :
  preserves P m1 -> preserves P m2 -> preserves P (if b then m1 else m2).
Proof. now destruct b. Qed.

End Preserved.

Ltac preserves_calls tac :=
  repeat (intros;
          first [ apply preserves_bind | apply preserves_try_except
                | apply preserves_if | apply preserves_get
                | apply preserves_keeps;
                  first [ apply keeps_perform | apply keeps_logs_append
                        | apply keeps_ret | apply keeps_raise ]
                | apply preserves_assign; tac ]).

Section Trimmed.

Context {W : Type}.
Variable respond : W -> call -> W * reply.

Lemma single_scrape_trimmed driver wait website_url number
    (st s' : state W scrape_locals) em nm ph :
  _perform_single_scrape respond driver wait website_url number st
  = (s', inr (em, nm, ph)) ->
  trimmed em /\ trimmed nm /\ trimmed ph.
Proof.
  unfold _perform_single_scrape. unfold bind at 1. unfold assign at 1.
  unfold bind at 1.
  match goal with
  | |- context [try_except ?b ?h ?s] =>
      assert (Hp : preserves trimmed_locals (try_except b h));
      [| destruct (try_except b h s) as [s1 [e | []]] eqn:E]
  end.
  - unfold submit_search, extract_details, open_carrier_details,
      read_name, read_phone, read_email, close_modal.
    preserves_calls
      ltac:(intros l [He [Hn Hp]]; unfold trimmed_locals; simpl;
            repeat split; auto using strip_idempotent).
  - discriminate.
  - unfold bind, get, ret. intros H. inversion H; subst.
    refine (Hp _ _ _ _ E). repeat split; reflexivity.
Qed.

Lemma scrape_number_trimmed driver wait website_url number
    (st st' : state W batch_locals) :
  Forall trimmed_record (var_results (locals st)) ->
  scrape_number respond driver wait website_url number st = (st', inr tt) ->
  Forall trimmed_record (var_results (locals st')).
Proof.
  intros J H.
  destruct (_perform_single_scrape respond driver wait website_url number
              (enter fresh st)) as [s1 [e | [[em nm] ph]]] eqn:E.
  - rewrite (scrape_number_raises _ _ _ _ _ _ _ _ E) in H.
    inversion H; subst. simpl. apply Forall_app. split; [exact J|].
    constructor; [|constructor]. repeat split; reflexivity.
  - rewrite (scrape_number_returns _ _ _ _ _ _ _ _ _ _ E) in H.
    inversion H; subst. simpl. apply Forall_app. split; [exact J|].
    constructor; [|constructor].
    exact (single_scrape_trimmed _ _ _ _ _ _ _ _ _ E).
Qed.

Lemma scrape_loop_trimmed driver wait website_url (numbers : list string) :
  forall st st' : state W batch_locals,
    Forall trimmed_record (var_results (locals st)) ->
    for_each numbers (scrape_number respond driver wait website_url) st
    = (st', inr tt) ->
    Forall trimmed_record (var_results (locals st')).
Proof.
  induction numbers as [|number rest IH]; intros st st' J H.
  - inversion H; subst. exact J.
  - simpl in H.
    destruct (scrape_number_total respond driver wait website_url number st)
      as [s1 [r [E _]]].
    rewrite (bind_inr _ _ _ _ _ E) in H.
    exact (IH s1 st' (scrape_number_trimmed _ _ _ _ _ _ J E) H).
Qed.

(** X11.  No name, phone or email of a response starts or ends with white
    space: each is the sentinel N/A or a text read from the page and
    trimmed. *)
Theorem response_fields_are_trimmed request
    (st st' : state W batch_locals) response :
  scrape_by_numbers respond request st = (st', inr response) ->
  Forall trimmed_record (results response).
Proof.
  intros H.
  destruct (scrape_by_numbers_response_inv respond request st st' response H)
    as [service [driver [s0 [s1 [rq [_ [L0 [E [_ [R _]]]]]]]]]].
  rewrite R.
  refine (scrape_loop_trimmed _ _ _ _ s0 s1 _ E).
  rewrite L0. constructor.
Qed.

End Trimmed.

Lemma response_fields_are_trimmed_witness :
  Forall trimmed_record
    [mkScrapeResult "12345" NA "ACME FREIGHT LLC" NA]%string.
Proof.
  apply (response_fields_are_trimmed world_name_only
           (mkScrapeRequest DEFAULT_WEBSITE_URL ["12345"]%string)
           (start_state empty_batch)
           (fst (scrape_by_numbers world_name_only
                   (mkScrapeRequest DEFAULT_WEBSITE_URL ["12345"]%string)
                   (start_state empty_batch)))
           (mkScrapeResponse "success" "Scraping completed."
              [mkScrapeResult "12345" NA "ACME FREIGHT LLC" NA] 1 [])%string).
  vm_compute. reflexivity.
Defined.

(** ** Faults before and inside the details *)

Section PartialResults.

Context {W : Type}.
Variable respond : W -> call -> W * reply.

(** X12.  A fault while the search is submitted ends the work on the number
    with no further call and an all-default record.  It is entered in
    the error list when it is a [WebDriverException], a timeout on the
    search form included (only the timeout on the result link counts as
    "no match"); any other exception is logged and leaves no entry. *)
Theorem search_fault_outcome driver wait website_url number
    (st : state W batch_locals) (sa : state W scrape_locals) (e : exn) :
  submit_search respond driver wait website_url number (enter fresh st)
  = (sa, inl e) ->
  exists st',
    scrape_number respond driver wait website_url number st = (st', inr tt) /\
    trace st' = trace sa /\
    var_results (locals st')
    = var_results (locals st) ++ [default_result number] /\
    var_errors (locals st')
    = var_errors (locals st)
      ++ (if isinstance_WebDriverException e
          then [error_entry number e] else []).
Proof.
  intros Hs.
  pose proof (submit_search_keeps_locals _ _ _ _ _ _ _ _ Hs) as La.
  simpl in La.
  destruct (isinstance_WebDriverException e) eqn:I.
  - assert (E : exists lg,
               _perform_single_scrape respond driver wait website_url number
                 (enter fresh st)
               = (mkState (locals sa) (world sa) (trace sa) lg, inl e)).
    { unfold _perform_single_scrape.
      rewrite (bind_inr _ _ _ (enter fresh st) tt) by reflexivity.
      eexists. apply bind_inl.
      rewrite (try_except_inl _ _ _ _ _ (bind_inl _ _ _ _ _ Hs)).
      rewrite I. unfold bind, logs_append, raise. reflexivity. }
    destruct E as [lg E].
    eexists. split; [exact (scrape_number_raises _ _ _ _ _ _ _ _ E)|].
    simpl. auto.
  - assert (E : exists lg,
               _perform_single_scrape respond driver wait website_url number
                 (enter fresh st)
               = (mkState (locals sa) (world sa) (trace sa) lg,
                  inr (NA, NA, NA))).
    { unfold _perform_single_scrape.
      rewrite (bind_inr _ _ _ (enter fresh st) tt) by reflexivity.
      eexists. erewrite bind_inr.
      2:{ rewrite (try_except_inl _ _ _ _ _ (bind_inl _ _ _ _ _ Hs)).
          rewrite I. unfold logs_append. reflexivity. }
      unfold bind, get, ret. cbn [locals]. rewrite La. reflexivity. }
    destruct E as [lg E].
    eexists. split; [exact (scrape_number_returns _ _ _ _ _ _ _ _ _ _ E)|].
    simpl. rewrite app_nil_r. auto.
Qed.

Lemma field_text_keeps_locals driver selector :
  keeps_locals (@field_text W respond scrape_locals driver selector).
Proof. unfold field_text. keeps_calls. Qed.

Lemma read_phone_fault driver (s s' : state W scrape_locals) e :
  field_text respond driver PHONE_ELEMENT s = (s', inl e) ->
  isinstance_NoSuchElementException e = false ->
  read_phone respond driver s = (s', inl e).
Proof.
  unfold read_phone, field_text, try_except, bind, perform.
  destruct (respond (world s) (find_element driver CSS_SELECTOR
                                            PHONE_ELEMENT))
    as [w1 [el | e1]]; cbn [locals world trace logs].
  - destruct (respond w1 (element_text el)) as [w2 [t | e2]];
      [discriminate|].
    intros H I. inversion H; subst. rewrite I. reflexivity.
  - intros H I. inversion H; subst. rewrite I. reflexivity.
Qed.

(** X13.  When the name has been read and the look-up of the phone ends in an
    exception other than "no such element", what becomes of the name
    depends on the class of that exception.  A plain
    [WebDriverException] leaves the extractor: the record is all-default
    and the name is lost, with one error entry.  A timeout or any other
    exception is logged inside the extractor: the record keeps the name,
    phone and email stay N/A, and no entry is written. *)
Theorem name_read_before_phone_fault driver wait website_url number
    (st : state W batch_locals) (sa s1 s2 s3 : state W scrape_locals)
    (text : string) (e : exn) :
  submit_search respond driver wait website_url number (enter fresh st)
  = (sa, inr tt) ->
  open_carrier_details respond driver wait sa = (s1, inr tt) ->
  field_text respond driver NAME_ELEMENT s1 = (s2, inr text) ->
  field_text respond driver PHONE_ELEMENT
             (fst (read_name respond driver s1)) = (s3, inl e) ->
  cls e <> NoSuchElementException ->
  exists st',
    scrape_number respond driver wait website_url number st = (st', inr tt) /\
    trace st' = trace s3 /\
    var_results (locals st')
    = var_results (locals st)
      ++ [if is_plain_webdriver e then default_result number
          else mkScrapeResult number NA (strip text) NA] /\
    var_errors (locals st')
    = var_errors (locals st)
      ++ (if is_plain_webdriver e then [error_entry number e] else []).
Proof.
  intros Hs Ho Hn Hp Hc.
  pose proof (submit_search_keeps_locals _ _ _ _ _ _ _ _ Hs) as La.
  pose proof (open_carrier_details_keeps_locals _ _ _ _ _ _ Ho) as L1.
  rewrite La in L1. simpl in L1.
  assert (An : absent_or_found
                 (snd (field_text respond driver NAME_ELEMENT s1)))
    by (rewrite Hn; exact I).
  destruct (read_name_field respond driver s1 An) as [Rn Ln].
  rewrite Hn in Ln. simpl in Ln. rewrite L1 in Ln.
  set (s2' := fst (read_name respond driver s1)) in *.
  assert (En : read_name respond driver s1 = (s2', inr tt))
    by (rewrite (surjective_pairing (read_name respond driver s1));
        now rewrite Rn).
  assert (In_ : isinstance_NoSuchElementException e = false).
  { unfold isinstance_NoSuchElementException.
    destruct (cls e); try reflexivity. contradiction. }
  pose proof (read_phone_fault driver s2' s3 e Hp In_) as Ep.
  pose proof (field_text_keeps_locals _ _ _ _ _ Hp) as L3.
  rewrite Ln in L3.
  assert (Hb : (open_carrier_details respond driver wait ;;
                read_name respond driver ;;
                read_phone respond driver ;;
                read_email respond driver ;;
                close_modal respond wait) sa = (s3, inl e)).
  { rewrite (bind_inr _ _ _ _ _ Ho), (bind_inr _ _ _ _ _ En).
    exact (bind_inl _ _ _ _ _ Ep). }
  destruct (is_plain_webdriver e) eqn:Pl.
  - assert (E : exists lg,
               _perform_single_scrape respond driver wait website_url number
                 (enter fresh st)
               = (mkState (locals s3) (world s3) (trace s3) lg, inl e)).
    { unfold _perform_single_scrape.
      rewrite (bind_inr _ _ _ (enter fresh st) tt) by reflexivity.
      eexists. apply bind_inl.
      erewrite try_except_inl.
      2:{ rewrite (bind_inr _ _ _ _ _ Hs). unfold extract_details.
          rewrite (try_except_inl _ _ _ _ _ Hb).
          unfold isinstance_TimeoutException. rewrite In_.
          unfold is_plain_webdriver in Pl.
          destruct (cls e); try discriminate. reflexivity. }
      unfold isinstance_WebDriverException.
      unfold is_plain_webdriver in Pl.
      destruct (cls e); try discriminate.
      unfold bind, logs_append, raise. reflexivity. }
    destruct E as [lg E].
    eexists. split; [exact (scrape_number_raises _ _ _ _ _ _ _ _ E)|].
    simpl. auto.
  - assert (E : exists lg,
               _perform_single_scrape respond driver wait website_url number
                 (enter fresh st)
               = (mkState (locals s3) (world s3) (trace s3) lg,
                  inr (NA, strip text, NA))).
    { unfold _perform_single_scrape.
      rewrite (bind_inr _ _ _ (enter fresh st) tt) by reflexivity.
      unfold is_plain_webdriver in Pl.
      unfold isinstance_NoSuchElementException in In_.
      destruct (cls e) eqn:C; try discriminate; try contradiction.
      - (* timeout: taken by the handler of the details *)
        eexists. erewrite bind_inr.
        2:{ apply try_except_inr. rewrite (bind_inr _ _ _ _ _ Hs).
            unfold extract_details.
            rewrite (try_except_inl _ _ _ _ _ Hb).
            unfold isinstance_TimeoutException. rewrite C.
            unfold logs_append. reflexivity. }
        unfold bind, get, ret. cbn [locals]. rewrite L3. reflexivity.
      - eexists. erewrite bind_inr.
        2:{ erewrite try_except_inl.
            2:{ rewrite (bind_inr _ _ _ _ _ Hs). unfold extract_details.
                rewrite (try_except_inl _ _ _ _ _ Hb).
                unfold isinstance_TimeoutException,
                  isinstance_NoSuchElementException. rewrite C.
                reflexivity. }
            unfold isinstance_WebDriverException. rewrite C.
            unfold logs_append. reflexivity. }
        unfold bind, get, ret. cbn [locals]. rewrite L3. reflexivity.
      - eexists. erewrite bind_inr.
        2:{ erewrite try_except_inl.
            2:{ rewrite (bind_inr _ _ _ _ _ Hs). unfold extract_details.
                rewrite (try_except_inl _ _ _ _ _ Hb).
                unfold isinstance_TimeoutException,
                  isinstance_NoSuchElementException. rewrite C.
                reflexivity. }
            unfold isinstance_WebDriverException. rewrite C.
            unfold logs_append. reflexivity. }
        unfold bind, get, ret. cbn [locals]. rewrite L3. reflexivity.
      - eexists. erewrite bind_inr.
        2:{ erewrite try_except_inl.
            2:{ rewrite (bind_inr _ _ _ _ _ Hs). unfold extract_details.
                rewrite (try_except_inl _ _ _ _ _ Hb).
                unfold isinstance_TimeoutException,
                  isinstance_NoSuchElementException. rewrite C.
                reflexivity. }
            unfold isinstance_WebDriverException. rewrite C.
            unfold logs_append. reflexivity. }
        unfold bind, get, ret. cbn [locals]. rewrite L3. reflexivity. }
    destruct E as [lg E].
    eexists. split; [exact (scrape_number_returns _ _ _ _ _ _ _ _ _ _ E)|].
    simpl. rewrite app_nil_r. auto.
Qed.

End PartialResults.

Lemma search_fault_outcome_witness :
  exists st',
    scrape_number world_form_timeout "handle" the_wait DEFAULT_WEBSITE_URL
      "12345" (start_state empty_batch) = (st', inr tt) /\
    var_results (locals st') = [default_result "12345"] /\
    var_errors (locals st')
    = ["Failed to process number 12345: Message: "%string].
Proof.
  destruct (search_fault_outcome world_form_timeout "handle" the_wait
              DEFAULT_WEBSITE_URL "12345" (start_state empty_batch)
              (fst (submit_search world_form_timeout "handle" the_wait
                      DEFAULT_WEBSITE_URL "12345"
                      (enter fresh (start_state empty_batch))))
              (an_exn TimeoutException "Message: "))
    as [st' [E [_ [R X]]]].
  - vm_compute. reflexivity.
  - exists st'. split; [exact E|]. split; [exact R | exact X].
Defined.

Lemma name_read_before_phone_fault_witness :
  exists st',
    scrape_number world_phone_timeout "handle" the_wait DEFAULT_WEBSITE_URL
      "12345" (start_state empty_batch) = (st', inr tt) /\
    var_results (locals st')
    = [mkScrapeResult "12345" NA "ACME FREIGHT LLC" NA]%string /\
    var_errors (locals st') = [].
Proof.
  pose (sa := fst (submit_search world_phone_timeout "handle" the_wait
                     DEFAULT_WEBSITE_URL "12345"
                     (enter fresh (start_state empty_batch)))).
  pose (s1 := fst (open_carrier_details world_phone_timeout "handle"
                     the_wait sa)).
  destruct (name_read_before_phone_fault world_phone_timeout "handle"
              the_wait DEFAULT_WEBSITE_URL "12345" (start_state empty_batch)
              sa s1
              (fst (field_text world_phone_timeout "handle" NAME_ELEMENT s1))
              (fst (field_text world_phone_timeout "handle" PHONE_ELEMENT
                      (fst (read_name world_phone_timeout "handle" s1))))
              " ACME FREIGHT LLC"%string
              (an_exn TimeoutException "Message: "))
    as [st' [E [_ [R X]]]].
  - vm_compute. reflexivity.
  - vm_compute. reflexivity.
  - vm_compute. reflexivity.
  - vm_compute. reflexivity.
  - discriminate.
  - exists st'. split; [exact E|]. split; [exact R | exact X].
Defined.

(** ** The session of the file endpoint *)

Section Balanced.

Context {W L : Type}.

Lemma no_session_change_counts (tr : list event) :
  forallb no_session_change tr = true ->
  count_events is_quit tr = 0%nat /\ count_events is_opened tr = 0%nat.
Proof.
  intros F. split.
  - apply (count_events_none _ no_session_change); [|exact F].
    intros ev H. apply andb_true_iff in H as [H _].
    now apply negb_true_iff in H.
  - apply (count_events_none _ no_session_change); [|exact F].
    intros ev H. apply andb_true_iff in H as [_ H].
    now apply negb_true_iff in H.
Qed.

Lemma balanced_of_quiet {A} (m : M W L A) :
  emits no_session_change m -> balanced m.
Proof.
  intros Hm st st' r H. destruct (Hm _ _ _ H) as [tr [T F]].
  destruct (no_session_change_counts tr F) as [Q O].
  exists tr. rewrite Q, O. auto.
Qed.

Lemma balanced_bind_left {A B} (m : M W L A) (k : A -> M W L B) :
  emits no_session_change m -> (forall a, balanced (k a)) ->
  balanced (bind m k).
Proof.
  intros Hm Hk st st' r H. unfold bind in H.
  destruct (m st) as [s1 [e | a]] eqn:E.
  - inversion H; subst. exact (balanced_of_quiet m Hm _ _ _ E).
  - destruct (Hm _ _ _ E) as [t1 [T1 F1]].
    destruct (no_session_change_counts t1 F1) as [Q1 O1].
    destruct (Hk a _ _ _ H) as [t2 [T2 [Q2 O2]]].
    exists (t1 ++ t2). rewrite T2, T1, <- app_assoc, !count_events_app.
    rewrite Q1, O1. auto.
Qed.

Lemma balanced_bind_right {A B} (m : M W L A) (k : A -> M W L B) :
  balanced m -> (forall a, emits no_session_change (k a)) ->
  balanced (bind m k).
Proof.
  intros Hm Hk st st' r H. unfold bind in H.
  destruct (m st) as [s1 [e | a]] eqn:E.
  - inversion H; subst. exact (Hm _ _ _ E).
  - destruct (Hm _ _ _ E) as [t1 [T1 [Q1 O1]]].
    destruct (Hk a _ _ _ H) as [t2 [T2 F2]].
    destruct (no_session_change_counts t2 F2) as [Q2 O2].
    exists (t1 ++ t2). rewrite T2, T1, <- app_assoc, !count_events_app.
    rewrite Q2, O2, !Nat.add_0_r. auto.
Qed.

Lemma balanced_try_except {A} (m : M W L A) (h : exn -> M W L A) :
  balanced m -> (forall e, emits no_session_change (h e)) ->
  balanced (try_except m h).
Proof.
  intros Hm Hh st st' r H. unfold try_except in H.
  destruct (m st) as [s1 [e | a]] eqn:E.
  - destruct (Hm _ _ _ E) as [t1 [T1 [Q1 O1]]].
    destruct (Hh e _ _ _ H) as [t2 [T2 F2]].
    destruct (no_session_change_counts t2 F2) as [Q2 O2].
    exists (t1 ++ t2). rewrite T2, T1, <- app_assoc, !count_events_app.
    rewrite Q2, O2, !Nat.add_0_r. auto.
  - inversion H; subst. exact (Hm _ _ _ E).
Qed.

Lemma balanced_try_finally {A} (m : M W L A) (fin : M W L unit) :
  balanced m -> emits no_session_change fin ->
  balanced (try_finally m fin).
Proof.
  intros Hm Hf st st' r H. unfold try_finally in H.
  destruct (m st) as [s1 r1] eqn:E.
  destruct (Hm _ _ _ E) as [t1 [T1 [Q1 O1]]].
  destruct (fin s1) as [s2 rf] eqn:F.
  destruct (Hf _ _ _ F) as [t2 [T2 F2]].
  destruct (no_session_change_counts t2 F2) as [Q2 O2].
  exists (t1 ++ t2).
  assert (st' = s2) by (destruct rf; inversion H; reflexivity). subst st'.
  rewrite T2, T1, <- app_assoc, !count_events_app.
  rewrite Q2, O2, !Nat.add_0_r. auto.
Qed.

Lemma balanced_if {A} (b : bool) (m1 m2 : M W L A) :
  balanced m1 -> balanced m2 -> balanced (if b then m1 else m2).
Proof. now destruct b. Qed.

End Balanced.

Section UploadSession.

Context {W : Type}.
Variable respond : W -> call -> W * reply.

Lemma run_batch_balanced website_url numbers :
  balanced (run_batch respond website_url numbers).
Proof.
  intros st st' r H.
  destruct (open_session respond (world st)) as [w1 [driver | e]] eqn:O.
  - destruct (run_batch_opened respond website_url numbers st w1 driver O)
      as [service [tr [wl [wq [rq [final [_ [E [T [F _]]]]]]]]]].
    rewrite E in H. inversion H; subst. eexists. split; [exact T|].
    rewrite !count_events_app.
    rewrite (count_events_none is_quit inside_session tr
               inside_session_not_quit F).
    rewrite (count_events_none is_opened inside_session tr
               inside_session_not_opened F).
    unfold count_events. simpl. lia.
  - destruct (run_batch_failed respond website_url numbers st w1 e O)
      as [tr [detail [lg [E F]]]].
    rewrite E in H. inversion H; subst. exists tr.
    split; [reflexivity|].
    rewrite (count_events_none is_quit failed_start tr
               failed_start_not_quit F).
    rewrite (count_events_none is_opened failed_start tr
               failed_start_not_opened F).
    auto.
Qed.

(** X14.  On every run of [scrape_by_file], as on every run of
    [scrape_by_numbers], the session is closed as many times as it came
    up, and it comes up at most once, whatever the upload, the parser,
    the numbers or the removal of the temporary file do. *)
Theorem upload_closes_session_once_per_open website_url filename
    (st st' : state W batch_locals) (r : exn + ScrapeResponse) :
  scrape_by_file respond website_url filename st = (st', r) ->
  count_events is_quit (new_events st st')
  = count_events is_opened (new_events st st') /\
  (count_events is_opened (new_events st st') <= 1)%nat.
Proof.
  intros H.
  assert (Hb : balanced (scrape_by_file respond website_url filename)).
  { unfold scrape_by_file. cbv zeta.
    apply balanced_bind_left; [apply emits_logs_new|]. intros _.
    apply balanced_bind_right;
      [|intros; unfold make_response; emits_calls].
    apply balanced_try_finally.
    - apply balanced_try_except; [|emits_calls].
      apply balanced_bind_left;
        [apply emits_perform; intros; reflexivity|]. intros _.
      apply balanced_bind_left; [apply emits_logs_append|]. intros _.
      apply balanced_bind_left.
      + apply emits_call_with, read_numbers_emits. reflexivity.
      + intros numbers. apply balanced_if.
        * apply balanced_of_quiet, emits_raise.
        * apply run_batch_balanced.
    - apply remove_upload_emits; reflexivity. }
  destruct (Hb _ _ _ H) as [tr [T [Q O]]].
  rewrite (new_events_app st st' tr T). auto.
Qed.

Lemma upload_body_start_failure website_url file_path
    (s0 : state W batch_locals) w1 saved w2 text w3 e :
  respond (world s0) (save_upload file_path) = (w1, Returns saved) ->
  respond w1 (open_read file_path) = (w2, Returns text) ->
  identifiers_of (file_lines text) <> [] ->
  open_session respond w2 = (w3, Raises e) ->
  exists tr detail lg,
    upload_body respond website_url file_path s0
    = (mkState empty_batch w3
         (trace s0 ++ (save_upload file_path, Returns saved)
                   :: (open_read file_path, Returns text) :: tr) lg,
       inl (http_exception 500 detail)) /\
    forallb failed_start tr = true.
Proof.
  intros Hs Ho Hn Hopen.
  unfold upload_body, try_except. unfold bind at 1. unfold perform at 1.
  rewrite Hs. unfold bind at 1. unfold logs_append at 1.
  unfold bind at 1. unfold call_with at 1.
  cbn [enter locals world trace logs].
  rewrite (read_numbers_run respond file_path text _ w2) by exact Ho.
  cbn [leave enter locals world trace logs].
  destruct (identifiers_of (file_lines text)) as [|n ns] eqn:I;
    [contradiction|].
  cbn [is_nil].
  match goal with
  | |- context [run_batch respond website_url (n :: ns) ?s] =>
      destruct (run_batch_failed respond website_url (n :: ns) s w3 e Hopen)
        as [tr [detail [lg [E F]]]]
  end.
  rewrite E. cbn [isinstance_HTTPException http_exception cls].
  unfold raise. cbn [leave enter locals world trace logs].
  rewrite <- !app_assoc.
  exists tr, detail. eexists. split; [reflexivity | exact F].
Qed.

(** X15.  When the upload holds identifiers but the session cannot be
    started, [scrape_by_file] fails without a response; nothing is
    closed, and the temporary file is still looked for.  If that file is
    removed without error, the exception is an [HTTPException] of status
    500, as in [scrape_by_numbers]. *)
Theorem upload_session_start_failure website_url filename
    (st : state W batch_locals) w1 saved w2 text w3 (e : exn) :
  respond (world st) (save_upload (os_path_join TEMP_UPLOAD_DIR filename))
  = (w1, Returns saved) ->
  respond w1 (open_read (os_path_join TEMP_UPLOAD_DIR filename))
  = (w2, Returns text) ->
  identifiers_of (file_lines text) <> [] ->
  open_session respond w2 = (w3, Raises e) ->
  exists st' e',
    scrape_by_file respond website_url filename st = (st', inl e') /\
    count_events is_quit (new_events st st') = 0%nat /\
    In (os_path_exists (os_path_join TEMP_UPLOAD_DIR filename))
       (map fst (new_events st st')) /\
    (upload_removed respond w3 (os_path_join TEMP_UPLOAD_DIR filename) ->
     exists detail, e' = http_exception 500 detail).
Proof.
  intros Hs Ho Hn Hopen.
  destruct (upload_body_start_failure website_url
              (os_path_join TEMP_UPLOAD_DIR filename)
              (mkState (locals st) (world st) (trace st) [])
              w1 saved w2 text w3 e Hs Ho Hn Hopen)
    as [tr [detail [lg [B F]]]].
  destruct (upload_fails_after_body respond website_url filename st _ _ B)
    as [st' [e' [rx [rest [E [T [Fc R]]]]]]].
  exists st', e'. split; [exact E|].
  cbn [trace world] in T, R.
  rewrite (new_events_app st st' _
             (eq_trans T (eq_sym (app_assoc _ _ _)))).
  split; [|split].
  - change ((save_upload (os_path_join TEMP_UPLOAD_DIR filename),
             Returns saved)
            :: (open_read (os_path_join TEMP_UPLOAD_DIR filename),
                Returns text) :: tr)
      with ([(save_upload (os_path_join TEMP_UPLOAD_DIR filename),
              Returns saved);
             (open_read (os_path_join TEMP_UPLOAD_DIR filename),
              Returns text)] ++ tr).
    rewrite !count_events_app.
    rewrite (count_events_none is_quit failed_start tr
               failed_start_not_quit F).
    apply (count_events_none is_quit is_cleanup_call
             ((os_path_exists (os_path_join TEMP_UPLOAD_DIR filename), rx)
              :: rest)) in Fc as Qc.
    + rewrite Qc. reflexivity.
    + intros [[] r]; simpl; auto; discriminate.
  - rewrite map_app. apply in_or_app. right. simpl. auto.
  - intros Hr. exists detail. exact (R Hr).
Qed.

End UploadSession.

Lemma upload_closes_session_once_per_open_witness :
  count_events is_quit
    (new_events (start_state empty_batch)
       (fst (scrape_by_file world_upload_quit_oserror DEFAULT_WEBSITE_URL
               "numbers.txt" (start_state empty_batch))))
  = 1%nat.
Proof.
  destruct (upload_closes_session_once_per_open world_upload_quit_oserror
              DEFAULT_WEBSITE_URL "numbers.txt" (start_state empty_batch)
              _ _ (surjective_pairing _)) as [Q _].
  rewrite Q. vm_compute. reflexivity.
Defined.

Lemma upload_session_start_failure_witness :
  exists st' detail,
    scrape_by_file world_upload_no_firefox DEFAULT_WEBSITE_URL "numbers.txt"
      (start_state empty_batch)
    = (st', inl (http_exception 500 detail)) /\
    count_events is_quit (new_events (start_state empty_batch) st') = 0%nat.
Proof.
  destruct (upload_session_start_failure world_upload_no_firefox
              DEFAULT_WEBSITE_URL "numbers.txt" (start_state empty_batch)
              tt "handle"%string tt "12345"%string tt
              (an_exn WebDriverException
                 "Process unexpectedly closed with status 1"))
    as [st' [e' [E [Q [_ R]]]]].
  - reflexivity.
  - reflexivity.
  - vm_compute. discriminate.
  - reflexivity.
  - destruct (R I) as [detail ->].
    exists st', detail. split; assumption.
Defined.
